(** * docker-credential-lastpass: the [lpass]-backed credential store

    A shallow embedding of [lastpass/lastpass_linux.go].  The external
    [lpass] tool and the standard input stream are the environment; they
    are reached through the [World] interface below, and every call made
    on them is recorded in a trace so that statements of the form "no
    subprocess is spawned" can be written down.

    Go strings are byte sequences and are modelled by [string] (a list of
    8-bit [ascii]).  A Go [error] is modelled by its message, [nil] by
    [None]. *)

From stdpp Require Import base option list gmap strings.
From Stdlib Require Import Ascii Lia.


(** ** Go values *)

(** The line feed, Go's ['\n']. *)
Definition LF : ascii := Ascii.ascii_of_nat 10.
Definition nl : string := String LF EmptyString.

(** Go's [error]: [None] is [nil], [Some msg] an error whose [Error()] is [msg]. *)
Definition error : Type := option string.
Definition errors_New (msg : string) : error := Some msg.

(** [strconv.Quote], with which [net/url] and [fmt]'s [%q] write a string
    into the text of an error.  What it escapes depends on the Unicode
    tables of the library, which are not modelled: the function is taken
    as given. *)
Class Strconv : Type := { strconv_Quote : string → string }.

(** ** The parts of package [strings] the program calls *)
Module GoStrings.

Fixpoint Contains_byte (cutset : string) (c : ascii) : bool :=
  match cutset with
  | EmptyString => false
  | String d rest => if decide (c = d) then true else Contains_byte rest c
  end.

(** [strings.TrimRight(s, cutset)] for a cutset of ASCII bytes: the
    longest suffix of [s] made of bytes of [cutset] is removed. *)
Fixpoint TrimRight (s cutset : string) : string :=
  match s with
  | EmptyString => EmptyString
  | String c rest =>
      match TrimRight rest cutset with
      | EmptyString =>
          if Contains_byte cutset c then EmptyString else String c EmptyString
      | String _ _ as t => String c t
      end
  end.

(** [strings.Split(s, sep)] for a one-byte separator: the segments of
    [s] between the occurrences of [sep], empty segments included.  A
    string without the separator, the empty one too, is a single
    segment. *)
Fixpoint Split (s : string) (sep : ascii) : list string :=
  match s with
  | EmptyString => [EmptyString]
  | String c rest =>
      if decide (c = sep) then EmptyString :: Split rest sep
      else match Split rest sep with
           | seg :: segs => String c seg :: segs
           | [] => [String c EmptyString]
           end
  end.

(** [strings.Count(s, sep)] for a one-byte separator. *)
Fixpoint Count (s : string) (sep : ascii) : nat :=
  match s with
  | EmptyString => 0
  | String c rest => (if decide (c = sep) then 1 else 0) + Count rest sep
  end.

(** [strings.HasSuffix]. *)
Fixpoint HasSuffix (s suffix : string) : bool :=
  if decide (s = suffix) then true
  else match s with
       | EmptyString => false
       | String _ rest => HasSuffix rest suffix
       end.

(** [strings.Repeat]. *)
Fixpoint Repeat (s : string) (count : nat) : string :=
  match count with
  | O => EmptyString
  | S n => s +:+ Repeat s n
  end.

(** [strings.HasPrefix]. *)
Fixpoint HasPrefix (s prefix : string) : bool :=
  match prefix, s with
  | EmptyString, _ => true
  | String p ps, String c cs => bool_decide (c = p) && HasPrefix cs ps
  | String _ _, EmptyString => false
  end.

(** [strings.IndexByte]; [None] stands for [-1]. *)
Fixpoint IndexByte (s : string) (c : ascii) : option nat :=
  match s with
  | EmptyString => None
  | String d rest => if decide (d = c) then Some 0 else S <$> IndexByte rest c
  end.

(** [strings.LastIndexByte]; [None] stands for [-1]. *)
Fixpoint LastIndexByte (s : string) (c : ascii) : option nat :=
  match s with
  | EmptyString => None
  | String d rest =>
      match LastIndexByte rest c with
      | Some i => Some (S i)
      | None => if decide (d = c) then Some 0 else None
      end
  end.

(** [strings.Index] for a non-empty substring; [None] stands for [-1]. *)
Fixpoint Index (s substr : string) : option nat :=
  if HasPrefix s substr then Some 0
  else match s with
       | EmptyString => None
       | String _ rest => S <$> Index rest substr
       end.

(** The slices [s[:n]] and [s[n:]], for [n] within the string. *)
Fixpoint slice_to (n : nat) (s : string) : string :=
  match n, s with
  | S n', String c rest => String c (slice_to n' rest)
  | _, _ => EmptyString
  end.

Fixpoint slice_from (n : nat) (s : string) : string :=
  match n, s with
  | S n', String _ rest => slice_from n' rest
  | _, _ => s
  end.

(** [strings.Cut] for a one-byte separator. *)
Definition Cut (s : string) (sep : ascii) : string * string * bool :=
  match IndexByte s sep with
  | Some i => (slice_to i s, slice_from (S i) s, true)
  | None => (s, EmptyString, false)
  end.

(** [strings.ToLower] on ASCII letters. *)
Fixpoint ToLower (s : string) : string :=
  match s with
  | EmptyString => EmptyString
  | String c rest =>
      let n := nat_of_ascii c in
      String (if (65 <=? n) && (n <=? 90) then ascii_of_nat (n + 32) else c)
             (ToLower rest)
  end.

End GoStrings.

(** ** Subprocesses and standard input *)

(** An [exec.Cmd] as the program sets it up: the program name, its
    arguments, and what is connected to its standard input ([None] when
    [cmd.Stdin] is left nil). *)
Record Cmd : Type := mkCmd {
  cmd_Path : string;
  cmd_Args : list string;
  cmd_Stdin : option string
}.

(** What [cmd.Run()] leaves behind: its error ([None] for exit status 0;
    [Some] for a non-zero exit or a failure to start) and the bytes the
    process wrote to its standard output and standard error. *)
Record RunResult : Type := mkRunResult {
  run_err : error;
  run_stdout : string;
  run_stderr : string
}.

#[global] Instance Cmd_eq_dec : EqDecision Cmd.
Proof. solve_decision. Defined.
#[global] Instance RunResult_eq_dec : EqDecision RunResult.
Proof. solve_decision. Defined.

(** The environment of the process.  [exec_Run] runs a command to
    completion; [stdin_pending] is the bytes a reader on [os.Stdin] gets
    before the end of input, [stdin_advance] the environment once a
    reader has taken a line from it. *)
Class World (W : Type) : Type := {
  exec_Run : Cmd -> W -> RunResult * W;
  stdin_pending : W -> string;
  stdin_advance : W -> W
}.

(** What the process does to its environment, in order. *)
Inductive Event : Type :=
  | EvRun (c : Cmd) (r : RunResult)
  | EvPrint (s : string)
  | EvReadString (line : string) (err : error).

#[global] Instance Event_eq_dec : EqDecision Event.
Proof. solve_decision. Defined.

(** [bufio.Reader.ReadString(delim)] on a stream holding [input] and then
    ending: the bytes up to and including the first [delim] and no error,
    or, when there is no [delim], all of [input] and [io.EOF]. *)
Fixpoint ReadString (input : string) (delim : ascii) : string * error :=
  match input with
  | EmptyString => (EmptyString, Some "EOF")
  | String c rest =>
      if decide (c = delim) then (String c EmptyString, None)
      else let '(line, err) := ReadString rest delim in (String c line, err)
  end.

(** ** The package state and its monad *)

(** The package-level variable [lpassInitialized], the environment, and
    the trace of what was done to it.  Calls are taken one at a time, so
    [initializationMutex], locked on entry of [checkInitialized] and
    unlocked by its deferred [Unlock] on every return, is free between
    calls and is not part of the state. *)
Record Proc (W : Type) : Type := mkProc {
  lpassInitialized : bool;
  world : W;
  trace : list Event
}.
Arguments mkProc {W} _ _ _.
Arguments lpassInitialized {W} _.
Arguments world {W} _.
Arguments trace {W} _.

(** The process at start: the flag has Go's zero value. *)
Definition start {W} (w : W) : Proc W := mkProc false w [].

Definition M (W A : Type) : Type := Proc W -> A * Proc W.

#[global] Instance M_ret {W} : MRet (M W) := fun A a p => (a, p).
#[global] Instance M_bind {W} : MBind (M W) :=
  fun A B f m p => let '(a, p') := m p in f a p'.


(** ** Package [path]

    [path.Join] and [path.Clean] of the Go standard library; the program
    calls [path.Join] to build every entry identifier. *)
Module GoPath.

Definition slash : ascii := "/"%char.

Fixpoint join_elems (elems : list string) : string :=
  match elems with
  | [] => EmptyString
  | [e] => e
  | e :: rest => e +:+ "/" +:+ join_elems rest
  end.

(** The loop of [path.Clean], one path element at a time.  The byte loop
    of the library looks at [path[r]] only at the start of an element or
    on a slash, so it handles the segments between slashes one by one:
    an empty segment and [.] are dropped, [..] removes the last element
    written unless that is protected, anything else is written.  [out] is
    the elements written so far, last first; [dotdot] counts the leading
    [..] elements of [out], which a later [..] must not remove (the
    library keeps the byte offset behind them). *)
Fixpoint Clean_elems (rooted : bool) (elems out : list string) (dotdot : nat)
  : list string :=
  match elems with
  | [] => rev out
  | e :: rest =>
      if decide (e = EmptyString) then Clean_elems rooted rest out dotdot
      else if decide (e = ".") then Clean_elems rooted rest out dotdot
      else if decide (e = "..") then
        if (dotdot <? length out)%nat then Clean_elems rooted rest (tail out) dotdot
        else if negb rooted then
          Clean_elems rooted rest (".." :: out) (S (length out))
        else Clean_elems rooted rest out dotdot
      else Clean_elems rooted rest (e :: out) dotdot
  end.

(** [path.Clean]: the shortest path equivalent to [path] by purely
    lexical processing; the empty path becomes [.]. *)
Definition Clean (path : string) : string :=
  match path with
  | EmptyString => "."
  | String c _ =>
      let rooted := bool_decide (c = slash) in
      let out := Clean_elems rooted (GoStrings.Split path slash) [] 0 in
      match out, rooted with
      | [], false => "."
      | _, false => join_elems out
      | _, true => "/" +:+ join_elems out
      end
  end.

(** The buffer [path.Join] fills before cleaning it: the elements
    separated by slashes, leading empty elements skipped. *)
Fixpoint Join_buf (buf : string) (elem : list string) : string :=
  match elem with
  | [] => buf
  | e :: rest =>
      if decide (buf = EmptyString) then
        (if decide (e = EmptyString) then Join_buf buf rest else Join_buf e rest)
      else Join_buf (buf +:+ "/" +:+ e) rest
  end.

(** [path.Join(elem...)]: empty when every element is, otherwise the
    cleaned concatenation. *)
Definition Join (elem : list string) : string :=
  if forallb (fun e => bool_decide (e = EmptyString)) elem then EmptyString
  else Clean (Join_buf EmptyString elem).

End GoPath.
(** ** Package [net/url]

    [url.Parse] and [URL.Hostname] of the Go standard library, function
    by function after its source (Go 1.19).  The package is not part of
    the program; the program calls these two functions only.  The fields
    [RawPath], [RawFragment] and [OmitHost], which only record how the
    input was spelled, are left out; every check that makes [Parse] fail
    is kept.  A failure is an error value of the package, [Error_text]
    is its [Error()] method. *)
Module GoURL.

(** The errors of the package: an [errors.New] with its text, an
    [EscapeError] and an [InvalidHostError] with the offending bytes, the
    [fmt.Errorf("invalid port %q after host", colonPort)] of [parseHost],
    and the [*url.Error] in which [Parse] wraps the cause, with the
    operation and the URL it was parsing. *)
Inductive error_value : Type :=
  | errorString (text : string)
  | EscapeError (s : string)
  | InvalidHostError (s : string)
  | invalid_port (colonPort : string)
  | url_Error (Op URL : string) (cause : error_value).

(** The [Error()] methods. *)
Fixpoint Error_text `{!Strconv} (e : error_value) : string :=
  match e with
  | errorString text => text
  | EscapeError s => "invalid URL escape " +:+ strconv_Quote s
  | InvalidHostError s =>
      "invalid character " +:+ strconv_Quote s +:+ " in host name"
  | invalid_port colonPort =>
      "invalid port " +:+ strconv_Quote colonPort +:+ " after host"
  | url_Error Op URL cause =>
      (* fmt.Sprintf("%s %q: %s", e.Op, e.URL, e.Err) *)
      Op +:+ " " +:+ strconv_Quote URL +:+ ": " +:+ Error_text cause
  end.

Inductive result (A : Type) : Type :=
  | Ok (a : A)
  | Err (e : error_value).
Arguments Ok {A} _.
Arguments Err {A} _.

#[global] Instance result_ret : MRet result := fun A a => Ok a.
#[global] Instance result_bind : MBind result :=
  fun A B f m => match m with Ok a => f a | Err e => Err e end.

Inductive encoding : Type :=
  | encodePath
  | encodePathSegment
  | encodeHost
  | encodeZone
  | encodeUserPassword
  | encodeQueryComponent
  | encodeFragment.

#[global] Instance encoding_eq_dec : EqDecision encoding.
Proof. solve_decision. Defined.

Record URL : Type := mkURL {
  Scheme : string;
  Opaque : string;
  User : option (string * option string);
  Host : string;
  Path : string;
  ForceQuery : bool;
  RawQuery : string;
  Fragment : string
}.

Definition byte_in (lo hi : nat) (c : ascii) : bool :=
  (lo <=? nat_of_ascii c) && (nat_of_ascii c <=? hi).

Definition is_alnum (c : ascii) : bool :=
  byte_in 97 122 c || byte_in 65 90 c || byte_in 48 57 c.

Definition dquote : ascii := ascii_of_nat 34.

Definition ishex (c : ascii) : bool :=
  byte_in 48 57 c || byte_in 97 102 c || byte_in 65 70 c.

Definition unhex (c : ascii) : nat :=
  if byte_in 48 57 c then nat_of_ascii c - 48
  else if byte_in 97 102 c then nat_of_ascii c - 97 + 10
  else if byte_in 65 70 c then nat_of_ascii c - 65 + 10
  else 0.

(** [shouldEscape]: whether the byte must be escaped when it appears in
    the given part of a URL. *)
Definition shouldEscape (c : ascii) (mode : encoding) : bool :=
  if is_alnum c then false
  else if bool_decide (mode = encodeHost ∨ mode = encodeZone)
          && (GoStrings.Contains_byte "!$&'()*+,;=:[]<>" c
              || bool_decide (c = dquote)) then false
  else if GoStrings.Contains_byte "-_.~" c then false
  else if GoStrings.Contains_byte "$&+,/:;=?@" c then
    match mode with
    | encodePath => bool_decide (c = "?"%char)
    | encodePathSegment => GoStrings.Contains_byte "/;,?" c
    | encodeUserPassword => GoStrings.Contains_byte "@/?:" c
    | encodeQueryComponent => true
    | encodeFragment => false
    | encodeHost | encodeZone => true
    end
  else if bool_decide (mode = encodeFragment)
          && GoStrings.Contains_byte "!()*" c then false
  else true.

(** The first loop of [unescape]: the error it stops on, if any. *)
Fixpoint unescape_check (s : string) (mode : encoding) : option error_value :=
  match s with
  | EmptyString => None
  | String c rest =>
      if decide (c = "%"%char) then
        match rest with
        | String h1 (String h2 rest') =>
            let v := ascii_of_nat (unhex h1 * 16 + unhex h2) in
            let is25 := bool_decide (h1 = "2"%char ∧ h2 = "5"%char) in
            if negb (ishex h1 && ishex h2) then
              Some (EscapeError (GoStrings.slice_to 3 s))
            else if bool_decide (mode = encodeHost)
                    && (unhex h1 <? 8) && negb is25 then
              Some (EscapeError (GoStrings.slice_to 3 s))
            else if bool_decide (mode = encodeZone)
                    && negb is25 && negb (bool_decide (v = " "%char))
                    && shouldEscape v encodeHost then
              Some (EscapeError (GoStrings.slice_to 3 s))
            else unescape_check rest' mode
        | _ => Some (EscapeError (GoStrings.slice_to 3 s))
        end
      else if bool_decide (mode = encodeHost ∨ mode = encodeZone)
              && (nat_of_ascii c <? 128) && shouldEscape c encodeHost then
        Some (InvalidHostError (String c EmptyString))
      else unescape_check rest mode
  end.

(** The second loop of [unescape], run on a string the first accepted. *)
Fixpoint unescape_decode (s : string) (mode : encoding) : string :=
  match s with
  | EmptyString => EmptyString
  | String c rest =>
      if decide (c = "%"%char) then
        match rest with
        | String h1 (String h2 rest') =>
            String (ascii_of_nat (unhex h1 * 16 + unhex h2))
                   (unescape_decode rest' mode)
        | _ => String c (unescape_decode rest mode)
        end
      else if bool_decide (c = "+"%char ∧ mode = encodeQueryComponent) then
        String " "%char (unescape_decode rest mode)
      else String c (unescape_decode rest mode)
  end.

Definition unescape (s : string) (mode : encoding) : result string :=
  match unescape_check s mode with
  | Some e => Err e
  | None => Ok (unescape_decode s mode)
  end.

(** [getScheme]: [i] is the offset of [rest] in [rawURL]. *)
Fixpoint getScheme_from (rawURL rest : string) (i : nat) : result (string * string) :=
  match rest with
  | EmptyString => Ok (EmptyString, rawURL)
  | String c rest' =>
      if byte_in 97 122 c || byte_in 65 90 c then getScheme_from rawURL rest' (S i)
      else if byte_in 48 57 c || GoStrings.Contains_byte "+-." c then
        match i with
        | O => Ok (EmptyString, rawURL)
        | S _ => getScheme_from rawURL rest' (S i)
        end
      else if decide (c = ":"%char) then
        match i with
        | O => Err (errorString "missing protocol scheme")
        | S _ => Ok (GoStrings.slice_to i rawURL, rest')
        end
      else Ok (EmptyString, rawURL)
  end.

Definition getScheme (rawURL : string) : result (string * string) :=
  getScheme_from rawURL rawURL 0.

Fixpoint all_bytes (P : ascii -> bool) (s : string) : bool :=
  match s with
  | EmptyString => true
  | String c rest => P c && all_bytes P rest
  end.

Definition stringContainsCTLByte (s : string) : bool :=
  negb (all_bytes (fun c => negb ((nat_of_ascii c <? 32)
                                  || bool_decide (nat_of_ascii c = 127))) s).

(** [validOptionalPort]: empty, or a colon followed by digits only. *)
Definition validOptionalPort (port : string) : bool :=
  match port with
  | EmptyString => true
  | String c digits => bool_decide (c = ":"%char) && all_bytes (byte_in 48 57) digits
  end.

Definition validUserinfo (s : string) : bool :=
  all_bytes (fun c => is_alnum c
                      || GoStrings.Contains_byte "-._:~!$&'()*+,;=%@" c) s.

Definition parseHost (host : string) : result string :=
  if GoStrings.HasPrefix host "[" then
    match GoStrings.LastIndexByte host "]"%char with
    | None => Err (errorString "missing ']' in host")
    | Some i =>
        let colonPort := GoStrings.slice_from (S i) host in
        if negb (validOptionalPort colonPort) then
          Err (invalid_port colonPort)
        else
          match GoStrings.Index (GoStrings.slice_to i host) "%25" with
          | Some zone =>
              host1 ← unescape (GoStrings.slice_to zone host) encodeHost;
              host2 ← unescape (GoStrings.slice_from zone (GoStrings.slice_to i host))
                               encodeZone;
              host3 ← unescape (GoStrings.slice_from i host) encodeHost;
              Ok (host1 +:+ host2 +:+ host3)
          | None => unescape host encodeHost
          end
    end
  else
    match GoStrings.LastIndexByte host ":"%char with
    | Some i =>
        let colonPort := GoStrings.slice_from i host in
        if negb (validOptionalPort colonPort) then
          Err (invalid_port colonPort)
        else unescape host encodeHost
    | None => unescape host encodeHost
    end.

Definition parseAuthority (authority : string)
  : result (option (string * option string) * string) :=
  match GoStrings.LastIndexByte authority "@"%char with
  | None => host ← parseHost authority; Ok (None, host)
  | Some i =>
      host ← parseHost (GoStrings.slice_from (S i) authority);
      let userinfo := GoStrings.slice_to i authority in
      if negb (validUserinfo userinfo) then
        Err (errorString "net/url: invalid userinfo")
      else
        let '(username, password, found) := GoStrings.Cut userinfo ":"%char in
        if found then
          username ← unescape username encodeUserPassword;
          password ← unescape password encodeUserPassword;
          Ok (Some (username, Some password), host)
        else
          userinfo ← unescape userinfo encodeUserPassword;
          Ok (Some (userinfo, None), host)
  end.

(** [parse(rawURL, viaRequest)] with [viaRequest] false, as [Parse]
    calls it, on the input without its fragment. *)
Definition parse (rawURL : string) : result URL :=
  if stringContainsCTLByte rawURL then
    Err (errorString "net/url: invalid control character in URL")
  else if decide (rawURL = "*") then
    Ok (mkURL EmptyString EmptyString None EmptyString "*" false
              EmptyString EmptyString)
  else
    '(scheme, rest) ← getScheme rawURL;
    let scheme := GoStrings.ToLower scheme in
    let '(rest, rawQuery, forceQuery) :=
      if GoStrings.HasSuffix rest "?" && bool_decide (GoStrings.Count rest "?"%char = 1)
      then (GoStrings.slice_to (String.length rest - 1) rest, EmptyString, true)
      else let '(before, after, _) := GoStrings.Cut rest "?"%char in
           (before, after, false) in
    if negb (GoStrings.HasPrefix rest "/")
       && negb (bool_decide (scheme = EmptyString)) then
      (* rootless paths are opaque *)
      Ok (mkURL scheme rest None EmptyString EmptyString forceQuery
                rawQuery EmptyString)
    else if negb (GoStrings.HasPrefix rest "/")
            && GoStrings.Contains_byte (GoStrings.Cut rest "/"%char).1.1 ":"%char then
      Err (errorString "first path segment in URL cannot contain colon")
    else
      '(user, host, rest) ←
        (if (negb (bool_decide (scheme = EmptyString))
             || negb (GoStrings.HasPrefix rest "///"))
            && GoStrings.HasPrefix rest "//" then
           let authority := GoStrings.slice_from 2 rest in
           let '(authority, rest) :=
             match GoStrings.IndexByte authority "/"%char with
             | Some i => (GoStrings.slice_to i authority,
                          GoStrings.slice_from i authority)
             | None => (authority, EmptyString)
             end in
           '(user, host) ← parseAuthority authority;
           Ok (user, host, rest)
         else Ok (None, EmptyString, rest));
      path ← unescape rest encodePath;
      Ok (mkURL scheme EmptyString user host path forceQuery rawQuery
                EmptyString).

Definition Parse (rawURL : string) : result URL :=
  let '(u, frag, _) := GoStrings.Cut rawURL "#"%char in
  match parse u with
  | Err err => Err (url_Error "parse" u err)
  | Ok url =>
      if decide (frag = EmptyString) then Ok url
      else
        match unescape frag encodeFragment with
        | Err err => Err (url_Error "parse" rawURL err)
        | Ok fragment =>
            Ok (mkURL (Scheme url) (Opaque url) (User url) (Host url) (Path url)
                      (ForceQuery url) (RawQuery url) fragment)
        end
  end.

(** [splitHostPort], its host half: a valid port is cut off, then the
    square brackets of an IPv6 literal. *)
Definition splitHostPort_host (hostPort : string) : string :=
  let host :=
    match GoStrings.LastIndexByte hostPort ":"%char with
    | Some colon =>
        if validOptionalPort (GoStrings.slice_from colon hostPort)
        then GoStrings.slice_to colon hostPort
        else hostPort
    | None => hostPort
    end in
  if GoStrings.HasPrefix host "[" && GoStrings.HasSuffix host "]"
  then GoStrings.slice_to (String.length host - 2) (GoStrings.slice_from 1 host)
  else host.

Definition Hostname (u : URL) : string := splitHostPort_host (Host u).

End GoURL.

(** ** Effects of the process on its environment *)
Section Effects.
Context {W : Type} `{!World W} `{!Strconv}.

(** [cmd.Run()]. *)
Definition cmd_Run (c : Cmd) : M W RunResult := fun p =>
  let '(r, w') := exec_Run c (world p) in
  (r, mkProc (lpassInitialized p) w' (trace p ++ [EvRun c r])).

Definition fmt_Print (s : string) : M W unit := fun p =>
  (tt, mkProc (lpassInitialized p) (world p) (trace p ++ [EvPrint s])).

(** [bufio.NewReader(os.Stdin).ReadString(delim)] on a fresh reader. *)
Definition Stdin_ReadString (delim : ascii) : M W (string * error) := fun p =>
  let '(line, err) := ReadString (stdin_pending (world p)) delim in
  ((line, err),
   mkProc (lpassInitialized p) (stdin_advance (world p))
          (trace p ++ [EvReadString line err])).

Definition get_lpassInitialized : M W bool := fun p => (lpassInitialized p, p).

Definition set_lpassInitialized (b : bool) : M W unit := fun p =>
  (tt, mkProc b (world p) (trace p)).

End Effects.

(** ** Package [lastpass] *)

(** Modelled from the spec: the struct [credentials.Credentials] of package
    [credentials], which is imported by the source but is not part of it;
    a credential has a server URL, a username and a secret. *)
Record Credentials : Type := mkCredentials {
  ServerURL : string;
  Username : string;
  Secret : string
}.

Module LastPass.
Section Store.
Context {W : Type} `{!World W} `{!Strconv}.

Definition LASTPASS_FOLDER : string := "Docker Credentials".

(** [exec.Command("lpass", args...)] with [cmd.Stdin] a reader on
    [stdinContent] and both outputs captured in buffers. *)
Definition runLastPassHelper (stdinContent : string) (args : list string)
  : M W (string * error) :=
  r ← cmd_Run (mkCmd "lpass" args (Some stdinContent));
  match run_err r with
  | Some err =>
      (* fmt.Errorf("%s: %s", err, stderr.String()) *)
      mret (EmptyString, Some (err +:+ ": " +:+ run_stderr r))
  | None =>
      (* trim newlines; lpass includes a newline at the end of its output *)
      mret (GoStrings.TrimRight (run_stdout r) nl, None)
  end.

(** The end of [checkInitialized], from the second status probe on. *)
Definition checkInitialized_probe : M W error :=
  '(_, err) ← runLastPassHelper EmptyString ["status"; "--quiet"];
  match err with
  | Some e => mret (Some ("lpass not initialized: " +:+ e))
  | None => _ ← set_lpassInitialized true; mret None
  end.

Definition checkInitialized : M W error :=
  initialized ← get_lpassInitialized;
  if (initialized : bool) then mret None
  else
    '(_, err) ← runLastPassHelper EmptyString ["status"; "--quiet"];
    match err with
    | Some _ =>
        _ ← fmt_Print "Enter your LastPass username: ";
        '(lpassUsername, _) ← Stdin_ReadString LF;
        r ← cmd_Run (mkCmd "lpass" ["login"; lpassUsername] None);
        match run_err r with
        | Some _ =>
            mret (Some ("Failed to log into `lpass`; try running `lpass login "
                        +:+ lpassUsername +:+ "` yourself."))
        | None => checkInitialized_probe
        end
    | None => checkInitialized_probe
    end.

Definition runLastPass (stdinContent : string) (args : list string)
  : M W (string * error) :=
  err ← checkInitialized;
  match err with
  | Some e => mret (EmptyString, Some e)
  | None => runLastPassHelper stdinContent args
  end.

Definition domainInURL (serverURL : string) : string * error :=
  match GoURL.Parse serverURL with
  | GoURL.Err err => (EmptyString, Some (GoURL.Error_text err))
  | GoURL.Ok url => (GoURL.Hostname url, None)
  end.

(** [Get] returns the username and secret to use for a given registry
    server URL. *)
Definition Get (serverURL : string) : M W (string * string * error) :=
  if decide (serverURL = EmptyString) then
    mret (EmptyString, EmptyString, errors_New "missing server url")
  else
    match domainInURL serverURL with
    | (_, Some e) => mret (EmptyString, EmptyString, Some e)
    | (domain, None) =>
        '(username, err) ← runLastPass EmptyString
            ["show"; "--user"; GoPath.Join [LASTPASS_FOLDER; domain]];
        match err with
        | Some e => mret (EmptyString, EmptyString, Some e)
        | None =>
            '(secret, err) ← runLastPass EmptyString
                ["show"; "--pass"; GoPath.Join [LASTPASS_FOLDER; domain]];
            match err with
            | Some e => mret (EmptyString, EmptyString, Some e)
            | None => mret (username, secret, None)
            end
        end
    end.

(** [Add] adds new credentials to the store; [None] is the nil pointer. *)
Definition Add (creds : option Credentials) : M W error :=
  match creds with
  | None => mret (errors_New "missing credentials")
  | Some creds =>
      match domainInURL (ServerURL creds) with
      | (_, Some e) => mret (Some e)
      | (domain, None) =>
          let details :=
            "URL: " +:+ ServerURL creds +:+ nl +:+
            "Username: " +:+ Username creds +:+ nl +:+
            "Password: " +:+ Secret creds +:+ nl in
          (* If the entry already exists, update it instead of creating
             another one *)
          '(_, _, err) ← Get (ServerURL creds);
          match err with
          | Some _ =>
              '(_, err) ← runLastPass details
                  ["edit"; "--non-interactive";
                   GoPath.Join [LASTPASS_FOLDER; domain]];
              mret err
          | None =>
              '(_, err) ← runLastPass details
                  ["add"; "--non-interactive";
                   GoPath.Join [LASTPASS_FOLDER; domain]];
              mret err
          end
      end
  end.

(** [Delete] removes credentials from the store. *)
Definition Delete (serverURL : string) : M W error :=
  if decide (serverURL = EmptyString) then mret (errors_New "missing server url")
  else
    match domainInURL serverURL with
    | (_, Some e) => mret (Some e)
    | (domain, None) =>
        '(_, err) ← runLastPass EmptyString
            ["rm"; GoPath.Join [LASTPASS_FOLDER; domain]];
        mret err
    end.

(** The [for _, entry := range entries] loop of [List], with the map built
    so far; the result is the pair [List] returns, [None] being the nil
    map. *)
Fixpoint List_range (entries : list string) (resp : gmap string string)
  : M W (option (gmap string string) * error) :=
  match entries with
  | [] => mret (Some resp, None)
  | entry :: entries' =>
      let entryID := entry in
      '(serverURL, err) ← runLastPass EmptyString ["show"; "--url"; entryID];
      match err with
      | Some e => mret (None, Some e)
      | None =>
          '(username, err) ← runLastPass EmptyString ["show"; "--user"; entryID];
          match err with
          | Some e => mret (None, Some e)
          | None => List_range entries' (<[serverURL := username]> resp)
          end
      end
  end.

(** [List] returns the stored URLs and corresponding usernames. *)
Definition List : M W (option (gmap string string) * error) :=
  '(output, err) ← runLastPass EmptyString ["ls"; "--format"; "%ai"; LASTPASS_FOLDER];
  match err with
  | Some e => mret (None, Some e)
  | None =>
      let entries := GoStrings.Split output LF in
      List_range entries ∅
  end.

End Store.
End LastPass.

(** ** A scripted environment

    An environment for running the model on concrete inputs: the
    subprocesses answer with the replies of a script, in order, whatever
    the command; standard input is a terminal that hands over one line
    at a time. *)
Record Scripted : Type := mkScripted {
  replies : list RunResult;
  input : string
}.

Definition exited (status : nat) (out err : string) : RunResult :=
  match status with
  | O => mkRunResult None out err
  | S _ => mkRunResult (Some "exit status 1") out err
  end.

#[global] Instance Scripted_World : World Scripted := {|
  exec_Run c w :=
    match replies w with
    | r :: rest => (r, mkScripted rest (input w))
    | [] => (exited 1 EmptyString "Error: no reply", w)
    end;
  stdin_pending w := input w;
  stdin_advance w :=
    mkScripted (replies w)
      (GoStrings.slice_from (String.length (ReadString (input w) LF).1) (input w))
|}.

(** [strconv.Quote] for the sample runs, whose strings are ASCII: the
    string in double quotes, a double quote and a backslash behind a
    backslash, the control characters as [\a \b \t \n \v \f \r] or as
    [\x] and two hexadecimal digits, the other ASCII bytes as they are.
    A byte from 0x80 on is written as the library writes one that is not
    part of a valid UTF-8 sequence, as [\x] and two digits. *)
Definition lowerhex (n : nat) : ascii :=
  match GoStrings.slice_from n "0123456789abcdef" with
  | String c _ => c
  | EmptyString => "0"%char
  end.

Definition Quote_byte (c : ascii) : string :=
  let n := nat_of_ascii c in
  let backslash := ascii_of_nat 92 in
  if bool_decide (n = 34) || bool_decide (n = 92) then
    String backslash (String c EmptyString)
  else if (32 <=? n) && (n <=? 126) then String c EmptyString
  else if bool_decide (n = 7) then String backslash "a"
  else if bool_decide (n = 8) then String backslash "b"
  else if bool_decide (n = 12) then String backslash "f"
  else if bool_decide (n = 10) then String backslash "n"
  else if bool_decide (n = 13) then String backslash "r"
  else if bool_decide (n = 9) then String backslash "t"
  else if bool_decide (n = 11) then String backslash "v"
  else String backslash
         (String "x" (String (lowerhex (n / 16))
                        (String (lowerhex (n mod 16)) EmptyString))).

Fixpoint Quote_bytes (s : string) : string :=
  match s with
  | EmptyString => EmptyString
  | String c rest => Quote_byte c +:+ Quote_bytes rest
  end.

Definition Quote_ASCII (s : string) : string :=
  String (ascii_of_nat 34) (Quote_bytes s +:+ String (ascii_of_nat 34) EmptyString).

#[global] Instance Strconv_ASCII : Strconv := {| strconv_Quote := Quote_ASCII |}.

(** A string between double quotes. *)
Definition quoted (s : string) : string :=
  String (ascii_of_nat 34) (s +:+ String (ascii_of_nat 34) EmptyString).

(** A process that has not checked its session yet, and one that has. *)
Definition fresh (script : list RunResult) (typed : string) : Proc Scripted :=
  start (mkScripted script typed).

Definition ready (script : list RunResult) : Proc Scripted :=
  mkProc true (mkScripted script EmptyString) [].

(** ** Names used in the statements *)

(** The commands the package builds, as they appear in the trace. *)
Definition status_probe : Cmd :=
  mkCmd "lpass" ["status"; "--quiet"] (Some EmptyString).

Definition login_cmd (lpassUsername : string) : Cmd :=
  mkCmd "lpass" ["login"; lpassUsername] None.

Definition show_cmd (field entryID : string) : Cmd :=
  mkCmd "lpass" ["show"; field; entryID] (Some EmptyString).

Definition ls_cmd : Cmd :=
  mkCmd "lpass" ["ls"; "--format"; "%ai"; LastPass.LASTPASS_FOLDER] (Some EmptyString).

(** The message of the error [checkInitialized] returns when the login
    subcommand fails. *)
Definition login_failed (lpassUsername : string) : string :=
  "Failed to log into `lpass`; try running `lpass login "
  +:+ lpassUsername +:+ "` yourself.".

(** The entry identifier of a server URL: the path [Get], [Add] and
    [Delete] hand to [lpass], or the error of [domainInURL]. *)
Definition EntryIdentifier `{!Strconv} (serverURL : string) : string * error :=
  match LastPass.domainInURL serverURL with
  | (_, Some e) => (EmptyString, Some e)
  | (domain, None) => (GoPath.Join [LastPass.LASTPASS_FOLDER; domain], None)
  end.

(** The field block [Add] pipes to [lpass add] or [lpass edit]. *)
Definition field_block (creds : Credentials) : string :=
  "URL: " +:+ ServerURL creds +:+ nl +:+
  "Username: " +:+ Username creds +:+ nl +:+
  "Password: " +:+ Secret creds +:+ nl.

(** The two invocations of one iteration of the loop of [List], with what
    they returned, and the pair the iteration stores when both succeed. *)
Definition show_events (entryID : string) (r : RunResult * RunResult) : list Event :=
  [EvRun (show_cmd "--url" entryID) r.1; EvRun (show_cmd "--user" entryID) r.2].

Definition entry_pair (r : RunResult * RunResult) : string * string :=
  (GoStrings.TrimRight (run_stdout r.1) nl, GoStrings.TrimRight (run_stdout r.2) nl).

Definition store_pair (resp : gmap string string) (kv : string * string)
  : gmap string string := <[kv.1 := kv.2]> resp.

(** "Last write wins", in the words of the specification: the username
    listed for a URL is that of the last pair with this URL, if any. *)
Fixpoint last_wins (pairs : list (string * string)) (url : string) : option string :=
  match pairs with
  | [] => None
  | (k, v) :: rest =>
      match last_wins rest url with
      | Some v' => Some v'
      | None => if decide (k = url) then Some v else None
      end
  end.

(** An iteration of [List] fails on [entryID] from [p1] with [e], ending
    in [p2]: the URL lookup fails, or it succeeds and the username lookup
    fails. *)
Definition show_fails {W : Type} `{!World W} (entryID : string)
    (p1 : Proc W) (e : string) (p2 : Proc W) : Prop :=
  (∃ s, LastPass.runLastPass EmptyString ["show"; "--url"; entryID] p1
        = ((s, Some e), p2))
  ∨ (∃ url p' s,
        LastPass.runLastPass EmptyString ["show"; "--url"; entryID] p1
        = ((url, None), p')
        ∧ LastPass.runLastPass EmptyString ["show"; "--user"; entryID] p'
          = ((s, Some e), p2)).

(** Every byte, for checks by enumeration. *)
Definition all_ascii : list ascii := ascii_of_nat <$> seq 0 256.

(** A string without a slash. *)
Definition slash_free (s : string) : Prop :=
  GoStrings.IndexByte s GoPath.slash = None.

(** ** Counting what a call did *)

(** How many events of a trace satisfy a test. *)
Fixpoint count_events (f : Event → bool) (evs : list Event) : nat :=
  match evs with
  | [] => 0
  | ev :: rest => (if f ev then 1 else 0) + count_events f rest
  end.

Definition is_probe (ev : Event) : bool :=
  match ev with
  | EvRun c _ =>
      match cmd_Args c with
      | [a; b] => String.eqb a "status" && String.eqb b "--quiet"
      | _ => false
      end
  | _ => false
  end.

Definition is_login (ev : Event) : bool :=
  match ev with
  | EvRun c _ =>
      match cmd_Args c with
      | a :: _ => String.eqb a "login"
      | [] => false
      end
  | _ => false
  end.

Definition is_prompt (ev : Event) : bool :=
  match ev with EvPrint _ => true | _ => false end.

Definition is_read (ev : Event) : bool :=
  match ev with EvReadString _ _ => true | _ => false end.

(** A run of [lpass] for one of the subcommands of the four operations,
    its standard input piped from a string. *)
Definition operation_run (ev : Event) : Prop :=
  ∃ verb rest stdinContent r,
    ev = EvRun (mkCmd "lpass" (verb :: rest) (Some stdinContent)) r
    ∧ verb ∈ ["show"; "add"; "edit"; "rm"; "ls"].

(** Events among which there is nothing of the session guard: runs of the
    operations' subcommands only, so no status probe, no login, no prompt
    and no read of standard input. *)
Definition no_session_events (evs : list Event) : Prop :=
  Forall operation_run evs
  ∧ count_events is_probe evs = 0
  ∧ count_events is_login evs = 0
  ∧ count_events is_prompt evs = 0
  ∧ count_events is_read evs = 0.

(** A computation that, in a process whose flag is set, keeps the flag
    set and adds no event of the session guard to the trace. *)
Definition quiet {W : Type} `{!World W} {A : Type} (m : M W A) : Prop :=
  ∀ p, lpassInitialized p = true →
       lpassInitialized (m p).2 = true
       ∧ ∃ evs, trace (m p).2 = trace p ++ evs ∧ no_session_events evs.

(** The segments of a listing put back together, a line feed between
    two of them. *)
Fixpoint unsplit (segs : list string) : string :=
  match segs with
  | [] => EmptyString
  | [seg] => seg
  | seg :: rest => seg +:+ nl +:+ unsplit rest
  end.

(** A string without a line feed. *)
Definition LF_free (s : string) : Prop := GoStrings.IndexByte s LF = None.

(** The path [Get], [Add] and [Delete] use for a host without a slash. *)
Definition entry_path (host : string) : string :=
  if decide (host = EmptyString ∨ host = ".") then LastPass.LASTPASS_FOLDER
  else if decide (host = "..") then "."
  else LastPass.LASTPASS_FOLDER +:+ "/" +:+ host.

(** The [lpass rm] command of [Delete]. *)
Definition rm_cmd (entryID : string) : Cmd :=
  mkCmd "lpass" ["rm"; entryID] (Some EmptyString).

(** The events of an iteration of the loop of [List] that fails on
    [entryID], and the error it returns: the URL lookup that failed, or
    the URL lookup and the username lookup that failed. *)
Definition iteration_fails (entryID : string) (tail : list Event) (e : string)
  : Prop :=
  (∃ ru err,
      tail = [EvRun (show_cmd "--url" entryID) ru]
      ∧ run_err ru = Some err
      ∧ e = err +:+ ": " +:+ run_stderr ru)
  ∨ (∃ ru rn err,
        tail = [EvRun (show_cmd "--url" entryID) ru;
                EvRun (show_cmd "--user" entryID) rn]
        ∧ run_err ru = None
        ∧ run_err rn = Some err
        ∧ e = err +:+ ": " +:+ run_stderr rn).

(** * Properties *)

Ltac run_M :=
  repeat (unfold mbind, mret, M_bind, M_ret, cmd_Run, fmt_Print,
            Stdin_ReadString, get_lpassInitialized, set_lpassInitialized
          || simpl).

Section ProcessRunner.
Context {W : Type} `{!World W} `{!Strconv}.

Lemma runLastPassHelper_unfold (stdinContent : string) (args : list string) (p : Proc W) :
  LastPass.runLastPassHelper stdinContent args p =
  let '(r, w') := exec_Run (mkCmd "lpass" args (Some stdinContent)) (world p) in
  let p' := mkProc (lpassInitialized p) w'
                   (trace p ++ [EvRun (mkCmd "lpass" args (Some stdinContent)) r]) in
  match run_err r with
  | Some err => ((EmptyString, Some (err +:+ ": " +:+ run_stderr r)), p')
  | None => ((GoStrings.TrimRight (run_stdout r) nl, None), p')
  end.
Proof.
  unfold LastPass.runLastPassHelper. run_M.
  destruct (exec_Run _ _) as [r w']. destruct (run_err r); reflexivity.
Qed.

End ProcessRunner.

(** ** What [strings.TrimRight] with cutset ["\n"] returns *)

Lemma Contains_byte_nl (c : ascii) : GoStrings.Contains_byte nl c = bool_decide (c = LF).
Proof.
  unfold nl. cbn [GoStrings.Contains_byte].
  destruct (decide (c = LF)) as [Hc|Hc].
  - by rewrite bool_decide_true.
  - by rewrite bool_decide_false.
Qed.

Lemma append_cons (c : ascii) (s t : string) : String c s +:+ t = String c (s +:+ t).
Proof. reflexivity. Qed.

Lemma append_nil_l (s : string) : EmptyString +:+ s = s.
Proof. reflexivity. Qed.

Lemma append_nil_r (s : string) : s +:+ EmptyString = s.
Proof. induction s as [|c s IH]; [done|]. rewrite append_cons. congruence. Qed.

Lemma append_assoc (s t u : string) : (s +:+ t) +:+ u = s +:+ (t +:+ u).
Proof. induction s as [|c s IH]; [done|]. rewrite !append_cons. congruence. Qed.

Create Rewrite HintDb gostring.
#[local] Hint Rewrite append_cons append_nil_l append_nil_r : gostring.

Lemma Repeat_nl_cons (k : nat) :
  GoStrings.Repeat nl (S k) = String LF (GoStrings.Repeat nl k).
Proof. reflexivity. Qed.

Lemma Repeat_nl_comm (k : nat) :
  String LF (GoStrings.Repeat nl k) = GoStrings.Repeat nl k +:+ nl.
Proof.
  induction k as [|k IH]; [done|].
  rewrite Repeat_nl_cons, append_cons. by rewrite <- IH.
Qed.

(** The input is the result followed by line feeds only. *)
Lemma TrimRight_nl_decompose (s : string) :
  ∃ k, s = GoStrings.TrimRight s nl +:+ GoStrings.Repeat nl k.
Proof.
  induction s as [|c s [k IH]]; [by exists 0|].
  cbn [GoStrings.TrimRight]. destruct (GoStrings.TrimRight s nl) as [|d t] eqn:E.
  - rewrite Contains_byte_nl. case_bool_decide as Hc.
    + subst c. exists (S k). rewrite append_nil_l in *.
      rewrite Repeat_nl_cons. by rewrite <- IH.
    + exists k. rewrite append_cons. by rewrite <- IH.
  - exists k. rewrite append_cons. by rewrite <- IH.
Qed.

(** The result does not end in a line feed. *)
Lemma TrimRight_nl_no_trailing (s t : string) :
  GoStrings.TrimRight s nl ≠ t +:+ nl.
Proof.
  revert t. induction s as [|c s IH]; intros t.
  - destruct t; discriminate.
  - cbn [GoStrings.TrimRight]. destruct (GoStrings.TrimRight s nl) as [|d u] eqn:E.
    + rewrite Contains_byte_nl. case_bool_decide as Hc.
      * destruct t; discriminate.
      * destruct t as [|c' t]; autorewrite with gostring.
        -- unfold nl. congruence.
        -- intros [= _ Ht]. destruct t; discriminate.
    + destruct t as [|c' t]; autorewrite with gostring.
      * unfold nl. intros [= _ ?]. 
      * intros [= _ Hu]. by apply (IH t).
Qed.

Section ProcessRunnerResults.
Context {W : Type} `{!World W} `{!Strconv}.

(** C6: when [cmd.Run()] reports an error (a non-zero exit or a failure
    to start), [runLastPassHelper] returns the empty string and one error
    whose message is the text of that error, [": "], and everything the
    process wrote to standard error. *)
Theorem runLastPassHelper_failure
    (stdinContent : string) (args : list string) (p : Proc W)
    (r : RunResult) (w' : W) (e : string) :
  exec_Run (mkCmd "lpass" args (Some stdinContent)) (world p) = (r, w') →
  run_err r = Some e →
  LastPass.runLastPassHelper stdinContent args p =
    ((EmptyString, Some (e +:+ ": " +:+ run_stderr r)),
     mkProc (lpassInitialized p) w'
            (trace p ++ [EvRun (mkCmd "lpass" args (Some stdinContent)) r])).
Proof.
  intros Hrun Herr. rewrite runLastPassHelper_unfold, Hrun. by rewrite Herr.
Qed.

(** C3, as the code has it: when [cmd.Run()] succeeds, [runLastPassHelper]
    returns standard output without any of its trailing line feeds: the
    output is the returned string followed by line feeds only, and the
    returned string does not end in one. *)
Theorem runLastPassHelper_success_trims_all
    (stdinContent : string) (args : list string) (p : Proc W)
    (r : RunResult) (w' : W) :
  exec_Run (mkCmd "lpass" args (Some stdinContent)) (world p) = (r, w') →
  run_err r = None →
  ∃ (out : string) (k : nat),
    (LastPass.runLastPassHelper stdinContent args p).1 = (out, None)
    ∧ run_stdout r = out +:+ GoStrings.Repeat nl k
    ∧ ∀ t, out ≠ t +:+ nl.
Proof.
  intros Hrun Herr. rewrite runLastPassHelper_unfold, Hrun. rewrite Herr.
  destruct (TrimRight_nl_decompose (run_stdout r)) as [k Hk].
  exists (GoStrings.TrimRight (run_stdout r) nl), k. split_and!; [done|done|].
  apply TrimRight_nl_no_trailing.
Qed.

End ProcessRunnerResults.

(** A failing [lpass ls]: exit status 1 with a message on standard error. *)
Lemma runLastPassHelper_failure_witness :
  LastPass.runLastPassHelper EmptyString ["ls"]
    (start (mkScripted [exited 1 EmptyString "Error: not logged in"] EmptyString))
  = ((EmptyString, Some "exit status 1: Error: not logged in"),
     mkProc false (mkScripted [] EmptyString)
       [EvRun (mkCmd "lpass" ["ls"] (Some EmptyString))
              (exited 1 EmptyString "Error: not logged in")]).
Proof.
  apply (runLastPassHelper_failure (W := Scripted) EmptyString ["ls"]
           (start (mkScripted [exited 1 EmptyString "Error: not logged in"] EmptyString))
           (exited 1 EmptyString "Error: not logged in")
           (mkScripted [] EmptyString) "exit status 1"); reflexivity.
Defined.

(** Standard output ["alice\n\n"]: both line feeds go. *)
Lemma runLastPassHelper_success_trims_all_witness :
  ∃ (out : string) (k : nat),
    (LastPass.runLastPassHelper EmptyString ["show"; "--user"; "x"]
       (start (mkScripted [exited 0 ("alice" +:+ nl +:+ nl) EmptyString] EmptyString))).1
      = (out, None)
    ∧ "alice" +:+ nl +:+ nl = out +:+ GoStrings.Repeat nl k
    ∧ ∀ t, out ≠ t +:+ nl.
Proof.
  apply (runLastPassHelper_success_trims_all (W := Scripted) EmptyString
           ["show"; "--user"; "x"]
           (start (mkScripted [exited 0 ("alice" +:+ nl +:+ nl) EmptyString] EmptyString))
           (exited 0 ("alice" +:+ nl +:+ nl) EmptyString)
           (mkScripted [] EmptyString)); reflexivity.
Defined.

(** C3 as stated fails: with standard output ["alice\n\n"], stripping
    exactly one line feed would return ["alice\n"]; the code returns
    ["alice"]. *)
Lemma runLastPassHelper_strips_more_than_one :
  run_stdout (exited 0 ("alice" +:+ nl +:+ nl) EmptyString) = ("alice" +:+ nl) +:+ nl
  ∧ (LastPass.runLastPassHelper EmptyString ["show"; "--user"; "x"]
       (fresh [exited 0 ("alice" +:+ nl +:+ nl) EmptyString] EmptyString)).1
    = ("alice", None)
  ∧ (LastPass.runLastPassHelper EmptyString ["show"; "--user"; "x"]
       (fresh [exited 0 ("alice" +:+ nl +:+ nl) EmptyString] EmptyString)).1
    ≠ ("alice" +:+ nl, None).
Proof. split_and!; [reflexivity|reflexivity|discriminate]. Qed.

(** ** The session guard *)

Section SessionGuard.
Context {W : Type} `{!World W} `{!Strconv}.

Lemma runLastPassHelper_flag (stdinContent : string) (args : list string) (p : Proc W) :
  lpassInitialized (LastPass.runLastPassHelper stdinContent args p).2
  = lpassInitialized p.
Proof.
  rewrite runLastPassHelper_unfold. destruct (exec_Run _ _) as [r w'].
  by destruct (run_err r).
Qed.

Lemma checkInitialized_fast (p : Proc W) :
  lpassInitialized p = true → LastPass.checkInitialized p = (None, p).
Proof. intros Hp. unfold LastPass.checkInitialized. run_M. by rewrite Hp. Qed.

Lemma runLastPass_fast (stdinContent : string) (args : list string) (p : Proc W) :
  lpassInitialized p = true →
  LastPass.runLastPass stdinContent args p
  = LastPass.runLastPassHelper stdinContent args p.
Proof.
  intros Hp. unfold LastPass.runLastPass.
  unfold mbind, M_bind. by rewrite (checkInitialized_fast p Hp).
Qed.

Lemma checkInitialized_probe_unfold (p : Proc W) :
  LastPass.checkInitialized_probe p =
  let '(r, w') := exec_Run status_probe (world p) in
  match run_err r with
  | Some e =>
      (Some ("lpass not initialized: " +:+ e +:+ ": " +:+ run_stderr r),
       mkProc (lpassInitialized p) w' (trace p ++ [EvRun status_probe r]))
  | None => (None, mkProc true w' (trace p ++ [EvRun status_probe r]))
  end.
Proof.
  unfold LastPass.checkInitialized_probe. unfold mbind at 1. unfold M_bind.
  rewrite runLastPassHelper_unfold. fold status_probe.
  destruct (exec_Run _ _) as [r w']. destruct (run_err r); [|done].
  by run_M.
Qed.

(** [checkInitialized] from the uninitialized state, path by path. *)
Lemma checkInitialized_unfold (p : Proc W) :
  lpassInitialized p = false →
  LastPass.checkInitialized p =
  let '(r1, w1) := exec_Run status_probe (world p) in
  let p1 := mkProc false w1 (trace p ++ [EvRun status_probe r1]) in
  match run_err r1 with
  | None => LastPass.checkInitialized_probe p1
  | Some _ =>
      let '(lpassUsername, rerr) := ReadString (stdin_pending w1) LF in
      let '(r2, w2) := exec_Run (login_cmd lpassUsername) (stdin_advance w1) in
      let p2 := mkProc false w2
                  (trace p ++ [EvRun status_probe r1;
                               EvPrint "Enter your LastPass username: ";
                               EvReadString lpassUsername rerr;
                               EvRun (login_cmd lpassUsername) r2]) in
      match run_err r2 with
      | Some _ => (Some (login_failed lpassUsername), p2)
      | None => LastPass.checkInitialized_probe p2
      end
  end.
Proof.
  intros Hp. unfold LastPass.checkInitialized.
  unfold mbind at 1. unfold M_bind at 1, get_lpassInitialized. rewrite Hp.
  unfold mbind at 1. unfold M_bind at 1.
  rewrite runLastPassHelper_unfold. fold status_probe. rewrite Hp.
  destruct (exec_Run status_probe (world p)) as [r1 w1].
  destruct (run_err r1) as [e1|]; [|done].
  run_M. destruct (ReadString (stdin_pending w1) LF) as [user rerr].
  fold (login_cmd user). destruct (exec_Run (login_cmd user) _) as [r2 w2].
  repeat (rewrite <- app_assoc; simpl). unfold login_failed.
  by destruct (run_err r2).
Qed.

End SessionGuard.

(** ** What [ReadString] hands back *)

Lemma ReadString_line (pre post : string) :
  GoStrings.IndexByte pre LF = None →
  ReadString (pre +:+ nl +:+ post) LF = (pre +:+ nl, None).
Proof.
  induction pre as [|c pre IH]; intros Hpre.
  - unfold nl. autorewrite with gostring. cbn [ReadString].
    by destruct (decide (LF = LF)).
  - cbn [GoStrings.IndexByte] in Hpre. rewrite !append_cons. cbn [ReadString].
    destruct (decide (c = LF)) as [|Hc]; [done|].
    destruct (GoStrings.IndexByte pre LF) eqn:E; [done|]. by rewrite IH.
Qed.

Lemma ReadString_eof (s : string) :
  GoStrings.IndexByte s LF = None → ReadString s LF = (s, Some "EOF").
Proof.
  induction s as [|c s IH]; intros Hs; [done|].
  cbn [GoStrings.IndexByte] in Hs. cbn [ReadString].
  destruct (decide (c = LF)) as [|Hc]; [done|].
  destruct (GoStrings.IndexByte s LF) eqn:E; [done|]. by rewrite IH.
Qed.

Section SessionGuardFlag.
Context {W : Type} `{!World W} `{!Strconv}.

Lemma checkInitialized_probe_flag (p : Proc W) :
  lpassInitialized (LastPass.checkInitialized_probe p).2 = true →
  (LastPass.checkInitialized_probe p).1 = None
  ∨ lpassInitialized p = true.
Proof.
  rewrite checkInitialized_probe_unfold. destruct (exec_Run _ _) as [r w'].
  destruct (run_err r); simpl; auto.
Qed.

Lemma checkInitialized_probe_last (p : Proc W) :
  lpassInitialized p = false →
  lpassInitialized (LastPass.checkInitialized_probe p).2 = true →
  (LastPass.checkInitialized_probe p).1 = None
  ∧ ∃ r, trace (LastPass.checkInitialized_probe p).2
         = trace p ++ [EvRun status_probe r] ∧ run_err r = None.
Proof.
  intros Hp. rewrite checkInitialized_probe_unfold.
  destruct (exec_Run _ _) as [r w']. destruct (run_err r) eqn:Er; simpl.
  - congruence.
  - intros _. split; [done|]. by exists r.
Qed.

(** A successful [checkInitialized] leaves the flag set. *)
Lemma checkInitialized_ok_flag (p p' : Proc W) :
  LastPass.checkInitialized p = (None, p') → lpassInitialized p' = true.
Proof.
  destruct (lpassInitialized p) eqn:Hp.
  - rewrite (checkInitialized_fast p Hp). by intros [= <-].
  - rewrite (checkInitialized_unfold p Hp).
    destruct (exec_Run _ _) as [r1 w1].
    assert (Hprobe : ∀ q q', LastPass.checkInitialized_probe q = (None, q') →
                             lpassInitialized q' = true).
    { intros q q'. rewrite checkInitialized_probe_unfold.
      destruct (exec_Run _ _) as [r w']. destruct (run_err r); [done|].
      by intros [= <-]. }
    destruct (run_err r1); [|by apply Hprobe].
    destruct (ReadString _ _) as [user rerr].
    destruct (exec_Run _ _) as [r2 w2].
    destruct (run_err r2); [done|by apply Hprobe].
Qed.



(** A successful [runLastPass] leaves the flag set. *)
Lemma runLastPass_ok_flag (stdinContent : string) (args : list string)
    (p p' : Proc W) (out : string) :
  LastPass.runLastPass stdinContent args p = ((out, None), p') →
  lpassInitialized p' = true.
Proof.
  unfold LastPass.runLastPass. unfold mbind, M_bind.
  destruct (LastPass.checkInitialized p) as [[e|] p1] eqn:Hc; [done|].
  intros Hrun. apply checkInitialized_ok_flag in Hc.
  pose proof (runLastPassHelper_flag stdinContent args p1) as Hf.
  rewrite Hrun in Hf. simpl in Hf. congruence.
Qed.






End SessionGuardFlag.

Section SessionGuardTheorems.
Context {W : Type} `{!World W} `{!Strconv}.


(** C9: when the first status probe fails, the line [ReadString] returned
    is what the login subcommand gets as its argument and what the
    login-failure message quotes, whatever error came with it: a line that
    ended in a line feed keeps it, and when the input ends before a line
    feed the bytes read so far are used and the error is dropped. *)
Theorem login_username_is_raw_line
    (p : Proc W) r1 w1 lpassUsername rerr r2 w2 :
  lpassInitialized p = false →
  exec_Run status_probe (world p) = (r1, w1) →
  run_err r1 ≠ None →
  ReadString (stdin_pending w1) LF = (lpassUsername, rerr) →
  exec_Run (login_cmd lpassUsername) (stdin_advance w1) = (r2, w2) →
  (∃ rest,
      trace (LastPass.checkInitialized p).2
      = trace p ++ [EvRun status_probe r1;
                    EvPrint "Enter your LastPass username: ";
                    EvReadString lpassUsername rerr;
                    EvRun (mkCmd "lpass" ["login"; lpassUsername] None) r2] ++ rest)
  ∧ (run_err r2 ≠ None →
     (LastPass.checkInitialized p).1
     = Some ("Failed to log into `lpass`; try running `lpass login "
             +:+ lpassUsername +:+ "` yourself."))
  ∧ (∀ pre post,
       stdin_pending w1 = pre +:+ nl +:+ post →
       GoStrings.IndexByte pre LF = None →
       lpassUsername = pre +:+ nl)
  ∧ (GoStrings.IndexByte (stdin_pending w1) LF = None →
     lpassUsername = stdin_pending w1 ∧ rerr = Some "EOF").
Proof.
  intros Hp Hrun1 Herr1 Hread Hrun2.
  rewrite (checkInitialized_unfold p Hp), Hrun1.
  destruct (run_err r1) as [e1|]; [|done]. rewrite Hread, Hrun2.
  fold (login_cmd lpassUsername). split_and!.
  - destruct (run_err r2).
    + exists []. cbn [snd trace]. by rewrite app_nil_r.
    + rewrite checkInitialized_probe_unfold. cbn [world trace lpassInitialized].
      destruct (exec_Run status_probe w2) as [r3 w3].
      exists [EvRun status_probe r3].
      destruct (run_err r3); cbn [snd trace]; by rewrite <- app_assoc.
  - by destruct (run_err r2).
  - intros pre post Hin Hpre. rewrite Hin, ReadString_line in Hread by done.
    congruence.
  - intros Hno. rewrite ReadString_eof in Hread by done.
    split; congruence.
Qed.

End SessionGuardTheorems.


(** ["alice\n"] typed at the prompt: [lpass login] gets the line feed too. *)
Lemma login_username_is_raw_line_witness :
  (∃ rest,
      trace (LastPass.checkInitialized
               (fresh [exited 1 EmptyString EmptyString;
                       exited 0 EmptyString EmptyString;
                       exited 0 EmptyString EmptyString]
                      ("alice" +:+ nl +:+ "bob"))).2
      = [] ++ [EvRun status_probe (exited 1 EmptyString EmptyString);
               EvPrint "Enter your LastPass username: ";
               EvReadString ("alice" +:+ nl) None;
               EvRun (mkCmd "lpass" ["login"; "alice" +:+ nl] None)
                     (exited 0 EmptyString EmptyString)] ++ rest)
  ∧ "alice" +:+ nl = "alice" +:+ nl.
Proof.
  destruct (login_username_is_raw_line (W := Scripted)
              (fresh [exited 1 EmptyString EmptyString;
                      exited 0 EmptyString EmptyString;
                      exited 0 EmptyString EmptyString]
                     ("alice" +:+ nl +:+ "bob"))
              (exited 1 EmptyString EmptyString)
              (mkScripted [exited 0 EmptyString EmptyString;
                           exited 0 EmptyString EmptyString]
                          ("alice" +:+ nl +:+ "bob"))
              ("alice" +:+ nl) None
              (exited 0 EmptyString EmptyString)
              (mkScripted [exited 0 EmptyString EmptyString] "bob"))
    as (Htrace & _ & Hline & _); try (reflexivity || discriminate).
  split; [exact Htrace|].
  apply (Hline "alice" "bob"); reflexivity.
Defined.

(** ** Argument checks *)

Section ArgumentChecks.
Context {W : Type} `{!World W} `{!Strconv}.

(** C2: [Get] and [Delete] of the empty server URL, and [Add] of a nil
    credential, return their missing-argument error and leave the process
    as it was: the trace is the same, so nothing was spawned. *)
Theorem missing_argument_no_subprocess (p : Proc W) :
  LastPass.Get EmptyString p
    = ((EmptyString, EmptyString, Some "missing server url"), p)
  ∧ LastPass.Delete EmptyString p = (Some "missing server url", p)
  ∧ LastPass.Add None p = (Some "missing credentials", p).
Proof. split_and!; reflexivity. Qed.

End ArgumentChecks.

(** ** [List] *)

Lemma Split_length (s : string) (sep : ascii) :
  length (GoStrings.Split s sep) = S (GoStrings.Count s sep).
Proof.
  induction s as [|c s IH]; [done|].
  cbn [GoStrings.Split GoStrings.Count].
  destruct (decide (c = sep)); cbn [length]; [by rewrite IH|].
  destruct (GoStrings.Split s sep); simpl in *; lia.
Qed.

(** The map after the loop: looking up a URL finds the username stored
    last for it, or what the map held before. *)
Lemma foldl_store_pair_lookup (pairs : list (string * string))
    (resp : gmap string string) (url : string) :
  foldl store_pair resp pairs !! url
  = match last_wins pairs url with
    | Some v => Some v
    | None => resp !! url
    end.
Proof.
  revert resp. induction pairs as [|[k v] pairs IH]; intros resp; [done|].
  cbn [foldl last_wins]. rewrite IH.
  destruct (last_wins pairs url); [done|].
  unfold store_pair. cbn [fst snd].
  destruct (decide (k = url)) as [->|Hne].
  - by rewrite lookup_insert_eq.
  - by rewrite lookup_insert_ne.
Qed.

(** Storing at least one pair leaves a map that is not empty. *)
Lemma foldl_store_pair_nonempty (kv : string * string)
    (pairs : list (string * string)) (resp : gmap string string) :
  foldl store_pair resp (kv :: pairs) ≠ ∅.
Proof.
  intros Hempty.
  pose proof (foldl_store_pair_lookup (kv :: pairs) resp kv.1) as Hlook.
  rewrite Hempty, lookup_empty in Hlook. destruct kv as [k v].
  cbn [last_wins fst] in Hlook. destruct (last_wins pairs k); [done|].
  by rewrite decide_True in Hlook.
Qed.

Section ListLoop.
Context {W : Type} `{!World W} `{!Strconv}.

Lemma List_unfold (p : Proc W) :
  LastPass.List p =
  let '((output, err), p0) :=
    LastPass.runLastPass EmptyString
      ["ls"; "--format"; "%ai"; LastPass.LASTPASS_FOLDER] p in
  match err with
  | Some e => ((None, Some e), p0)
  | None => LastPass.List_range (GoStrings.Split output LF) ∅ p0
  end.
Proof.
  unfold LastPass.List. unfold mbind, M_bind.
  destruct (LastPass.runLastPass _ _ p) as [[output [e|]] p0]; reflexivity.
Qed.

Lemma List_range_cons (entry : string) (entries : list string)
    (resp : gmap string string) (p : Proc W) :
  LastPass.List_range (entry :: entries) resp p =
  let '((serverURL, err), p1) :=
    LastPass.runLastPass EmptyString ["show"; "--url"; entry] p in
  match err with
  | Some e => ((None, Some e), p1)
  | None =>
      let '((username, err), p2) :=
        LastPass.runLastPass EmptyString ["show"; "--user"; entry] p1 in
      match err with
      | Some e => ((None, Some e), p2)
      | None => LastPass.List_range entries (<[serverURL := username]> resp) p2
      end
  end.
Proof.
  cbn [LastPass.List_range]. unfold mbind, M_bind.
  destruct (LastPass.runLastPass _ _ p) as [[serverURL [e|]] p1]; [done|].
  destruct (LastPass.runLastPass _ _ p1) as [[username [e|]] p2]; done.
Qed.

(** Entries that went through leave the loop where it would be had it
    started after them. *)
Lemma List_range_app (pre post : list string) (resp resp1 : gmap string string)
    (p p1 : Proc W) :
  LastPass.List_range pre resp p = ((Some resp1, None), p1) →
  LastPass.List_range (pre ++ post) resp p = LastPass.List_range post resp1 p1.
Proof.
  revert resp p. induction pre as [|entry pre IH]; intros resp p.
  - by intros [= -> ->].
  - rewrite <- app_comm_cons, !List_range_cons.
    destruct (LastPass.runLastPass _ _ p) as [[serverURL [e|]] p'1]; [done|].
    destruct (LastPass.runLastPass _ _ p'1) as [[username [e|]] p'2]; [done|].
    apply IH.
Qed.

(** The loop never returns a map together with an error. *)
Lemma List_range_error_nil (entries : list string) (resp : gmap string string)
    (p p' : Proc W) (m : option (gmap string string)) (e : string) :
  LastPass.List_range entries resp p = ((m, Some e), p') → m = None.
Proof.
  revert resp p. induction entries as [|entry entries IH]; intros resp p.
  - by intros [=].
  - rewrite List_range_cons.
    destruct (LastPass.runLastPass _ _ p) as [[serverURL [e1|]] p1];
      [by intros [= <- _ _]|].
    destruct (LastPass.runLastPass _ _ p1) as [[username [e2|]] p2];
      [by intros [= <- _ _]|].
    apply IH.
Qed.

(** A successful run of the loop, from a process whose flag is set: every
    entry made its two invocations, in order, both succeeded, and the map
    is the pairs stored one after the other. *)
Lemma List_range_success (entries : list string) (resp m : gmap string string)
    (p p' : Proc W) :
  lpassInitialized p = true →
  LastPass.List_range entries resp p = ((Some m, None), p') →
  ∃ rs : list (RunResult * RunResult),
    length rs = length entries
    ∧ trace p' = trace p ++ concat (zip_with show_events entries rs)
    ∧ Forall (λ r, run_err r.1 = None ∧ run_err r.2 = None) rs
    ∧ m = foldl store_pair resp (entry_pair <$> rs).
Proof.
  revert resp p. induction entries as [|entry entries IH]; intros resp p Hp.
  - intros [= -> ->]. exists []. by rewrite app_nil_r.
  - rewrite List_range_cons, (runLastPass_fast _ _ p Hp), runLastPassHelper_unfold.
    fold (show_cmd "--url" entry).
    destruct (exec_Run (show_cmd "--url" entry) (world p)) as [ru w1].
    destruct (run_err ru) eqn:Eu; [done|]. cbv beta iota zeta.
    rewrite runLastPass_fast by done. rewrite runLastPassHelper_unfold.
    cbn [world trace lpassInitialized]. fold (show_cmd "--user" entry).
    destruct (exec_Run (show_cmd "--user" entry) w1) as [rn w2].
    destruct (run_err rn) eqn:En; [done|]. cbv beta iota zeta.
    intros Hrest. apply IH in Hrest as (rs & Hlen & Htr & Hok & Hm); [|done].
    exists ((ru, rn) :: rs). split_and!.
    + simpl. by rewrite Hlen.
    + rewrite Htr. cbn [trace zip_with concat show_events fst snd].
      by rewrite <- !app_assoc.
    + by constructor.
    + by rewrite Hm.
Qed.

(** Every run of the loop, from a process whose flag is set: complete
    iterations for the first identifiers, and then either the end of the
    list or the iteration that failed. *)
Lemma List_range_run (entries : list string) (resp : gmap string string)
    (p : Proc W) :
  lpassInitialized p = true →
  ∃ rs tail,
    trace (LastPass.List_range entries resp p).2
    = trace p ++ concat (zip_with show_events entries rs) ++ tail
    ∧ Forall (λ r, run_err r.1 = None ∧ run_err r.2 = None) rs
    ∧ (length rs = length entries
       ∧ tail = []
       ∧ (LastPass.List_range entries resp p).1
         = (Some (foldl store_pair resp (entry_pair <$> rs)), None)
       ∨ ∃ entry e,
           entries !! length rs = Some entry
           ∧ (LastPass.List_range entries resp p).1 = (None, Some e)
           ∧ iteration_fails entry tail e).
Proof.
  revert resp p. induction entries as [|entry entries IH]; intros resp p Hp.
  - exists [], []. split_and!; [by rewrite app_nil_r|done|by left].
  - rewrite List_range_cons, (runLastPass_fast _ _ p Hp), runLastPassHelper_unfold.
    fold (show_cmd "--url" entry).
    destruct (exec_Run (show_cmd "--url" entry) (world p)) as [ru w1].
    destruct (run_err ru) as [err|] eqn:Eu; cbv beta iota zeta.
    { exists [], [EvRun (show_cmd "--url" entry) ru].
      split_and!; [done|done|]. right. exists entry, (err +:+ ": " +:+ run_stderr ru).
      split_and!; [done|done|]. left. by exists ru, err. }
    rewrite runLastPass_fast by done. rewrite runLastPassHelper_unfold.
    cbn [world trace lpassInitialized]. fold (show_cmd "--user" entry).
    destruct (exec_Run (show_cmd "--user" entry) w1) as [rn w2].
    destruct (run_err rn) as [err|] eqn:En; cbv beta iota zeta.
    { exists [], [EvRun (show_cmd "--url" entry) ru;
                  EvRun (show_cmd "--user" entry) rn].
      split_and!; [by rewrite <- app_assoc|done|]. right.
      exists entry, (err +:+ ": " +:+ run_stderr rn).
      split_and!; [done|done|]. right. by exists ru, rn, err. }
    match goal with
    | |- context [LastPass.List_range entries ?resp' ?p'] =>
        destruct (IH resp' p') as (rs & tail & Htr & Hok & Hend); [done|]
    end.
    exists ((ru, rn) :: rs), tail. split_and!.
    + rewrite Htr. cbn [trace zip_with concat show_events fst snd].
      by rewrite <- !app_assoc.
    + by constructor.
    + destruct Hend as [(Hlen & -> & Hres)|(entry' & e & Hentry & Hres & Hfail)].
      * left. split_and!; [cbn [length]; by rewrite Hlen|done|by rewrite Hres].
      * right. exists entry', e. by split_and!.
Qed.

End ListLoop.

Section ListTheorems.
Context {W : Type} `{!World W} `{!Strconv}.

(** C7: [List] never returns a map together with an error; and when the
    listing succeeded, the entries before some entry went through, and
    the URL lookup or the username lookup of that entry fails, [List]
    returns the nil map and the error of that lookup. *)
Theorem List_fail_fast :
  (∀ (p p' : Proc W) m e, LastPass.List p = ((m, Some e), p') → m = None)
  ∧ (∀ (p p0 p1 p2 : Proc W) output pre entry post resp1 e,
        LastPass.runLastPass EmptyString
          ["ls"; "--format"; "%ai"; LastPass.LASTPASS_FOLDER] p
        = ((output, None), p0) →
        GoStrings.Split output LF = pre ++ entry :: post →
        LastPass.List_range pre ∅ p0 = ((Some resp1, None), p1) →
        show_fails entry p1 e p2 →
        LastPass.List p = ((None, Some e), p2)).
Proof.
  split.
  - intros p p' m e. rewrite List_unfold.
    destruct (LastPass.runLastPass _ _ p) as [[output [e0|]] p0].
    + by intros [= <- _ _].
    + apply List_range_error_nil.
  - intros p p0 p1 p2 output pre entry post resp1 e Hls Hsplit Hpre Hfail.
    rewrite List_unfold, Hls, Hsplit.
    rewrite (List_range_app pre (entry :: post) ∅ resp1 p0 p1 Hpre).
    rewrite List_range_cons.
    destruct Hfail as [[s Hurl]|(url & p' & s & Hurl & Huser)].
    + by rewrite Hurl.
    + by rewrite Hurl, Huser.
Qed.

(** A successful run of [List]: the loop ran from a process whose flag is
    set, over the segments of the listing output. *)
Lemma List_success (p p0 p' : Proc W) (output : string) (m : gmap string string) :
  LastPass.runLastPass EmptyString
    ["ls"; "--format"; "%ai"; LastPass.LASTPASS_FOLDER] p = ((output, None), p0) →
  LastPass.List p = ((Some m, None), p') →
  ∃ rs : list (RunResult * RunResult),
    length rs = length (GoStrings.Split output LF)
    ∧ trace p' = trace p0
                 ++ concat (zip_with show_events (GoStrings.Split output LF) rs)
    ∧ Forall (λ r, run_err r.1 = None ∧ run_err r.2 = None) rs
    ∧ m = foldl store_pair ∅ (entry_pair <$> rs).
Proof.
  intros Hls. rewrite List_unfold, Hls. intros Hloop.
  apply List_range_success in Hloop; [done|by eapply runLastPass_ok_flag].
Qed.

(** C8: on a successful run of [List], every identifier of the listing
    output, in output order, made a [show --url] and then a [show --user]
    invocation and nothing else was run; the map returned is the pairs
    (URL, username) these returned, stored one after the other; so the
    username found for a URL is that of the last identifier that resolved
    to it. *)
Theorem List_success_last_write_wins
    (p p0 p' : Proc W) (output : string) (m : gmap string string) :
  LastPass.runLastPass EmptyString
    ["ls"; "--format"; "%ai"; LastPass.LASTPASS_FOLDER] p = ((output, None), p0) →
  LastPass.List p = ((Some m, None), p') →
  ∃ rs : list (RunResult * RunResult),
    length rs = length (GoStrings.Split output LF)
    ∧ trace p' = trace p0
                 ++ concat (zip_with show_events (GoStrings.Split output LF) rs)
    ∧ Forall (λ r, run_err r.1 = None ∧ run_err r.2 = None) rs
    ∧ m = foldl store_pair ∅ (entry_pair <$> rs)
    ∧ ∀ url, m !! url = last_wins (entry_pair <$> rs) url.
Proof.
  intros Hls HList.
  destruct (List_success p p0 p' output m Hls HList) as (rs & Hlen & Htr & Hok & Hm).
  exists rs. split_and!; try done.
  intros url. rewrite Hm, foldl_store_pair_lookup.
  destruct (last_wins _ url); [done|]. apply lookup_empty.
Qed.

(** C10: when the listing succeeds, the loop of [List] ranges over the
    segments of the output between line feeds, empty ones included, one
    more than there are line feeds; for the empty output that is the
    single empty identifier, so [show --url] is run with the empty
    identifier, and [show --user] too when that succeeded.  The run
    consists of the complete iterations of the first identifiers, two
    invocations each, and then either nothing more, every segment having
    had its iteration and the map of their pairs being returned, or the
    iteration that failed and its error.  [List] never returns an empty
    map, nor nil for both results. *)
Theorem List_iterates_over_every_segment
    (p p0 : Proc W) (output : string) :
  LastPass.runLastPass EmptyString
    ["ls"; "--format"; "%ai"; LastPass.LASTPASS_FOLDER] p = ((output, None), p0) →
  (LastPass.List p = LastPass.List_range (GoStrings.Split output LF) ∅ p0
   ∧ length (GoStrings.Split output LF) = S (GoStrings.Count output LF)
   ∧ (output = EmptyString → GoStrings.Split output LF = [EmptyString]))
  ∧ (output = EmptyString →
     ∃ ru rest,
       trace (LastPass.List p).2
       = trace p0 ++ EvRun (show_cmd "--url" EmptyString) ru :: rest
       ∧ (run_err ru = None →
          ∃ rn, rest = [EvRun (show_cmd "--user" EmptyString) rn]))
  ∧ (∃ rs tail,
       trace (LastPass.List p).2
       = trace p0 ++ concat (zip_with show_events (GoStrings.Split output LF) rs)
         ++ tail
       ∧ Forall (λ r, run_err r.1 = None ∧ run_err r.2 = None) rs
       ∧ (length rs = S (GoStrings.Count output LF)
          ∧ tail = []
          ∧ (LastPass.List p).1
            = (Some (foldl store_pair ∅ (entry_pair <$> rs)), None)
          ∨ ∃ entry e,
              GoStrings.Split output LF !! length rs = Some entry
              ∧ (LastPass.List p).1 = (None, Some e)
              ∧ iteration_fails entry tail e))
  ∧ (LastPass.List p).1 ≠ (Some ∅, None)
  ∧ (LastPass.List p).1 ≠ (None, None).
Proof.
  intros Hls. pose proof (runLastPass_ok_flag _ _ _ _ _ Hls) as Hp0.
  assert (HList : LastPass.List p
                  = LastPass.List_range (GoStrings.Split output LF) ∅ p0).
  { by rewrite List_unfold, Hls. }
  destruct (List_range_run (GoStrings.Split output LF) ∅ p0 Hp0)
    as (rs & tail & Htr & Hok & Hend).
  rewrite <- HList in Htr, Hend. rewrite Split_length in Hend.
  split_and!.
  - done.
  - apply Split_length.
  - by intros ->.
  - intros ->. cbn [GoStrings.Split] in Htr, Hend.
    destruct Hend as [(Hlen & -> & _)|(entry & e & Hentry & _ & Hfail)].
    + destruct rs as [|[ru rn] [|r rs]]; try done.
      inversion_clear Hok as [|? ? [Hu Hn] _].
      exists ru, [EvRun (show_cmd "--user" EmptyString) rn].
      split; [by rewrite Htr|]. intros _. by exists rn.
    + destruct rs as [|r rs]; [|done]. injection Hentry as <-.
      destruct Hfail as [(ru & err & -> & Hu & _)|(ru & rn & err & -> & Hu & _)].
      * exists ru, []. split; [by rewrite Htr|]. by rewrite Hu.
      * exists ru, [EvRun (show_cmd "--user" EmptyString) rn].
        split; [by rewrite Htr|]. intros _. by exists rn.
  - by exists rs, tail.
  - destruct Hend as [(Hlen & _ & ->)|(entry & e & _ & -> & _)]; [|done].
    destruct rs as [|r rs]; [done|]. intros [= Hm].
    by apply foldl_store_pair_nonempty in Hm.
  - by destruct Hend as [(_ & _ & ->)|(entry & e & _ & -> & _)].
Qed.

End ListTheorems.

(** Two identifiers; the second username lookup of the second fails. *)
Lemma List_fail_fast_witness :
  LastPass.List
    (ready [exited 0 ("a" +:+ nl +:+ "b" +:+ nl) EmptyString;
            exited 0 ("https://a.example" +:+ nl) EmptyString;
            exited 0 ("alice" +:+ nl) EmptyString;
            exited 0 ("https://b.example" +:+ nl) EmptyString;
            exited 1 EmptyString "Error: Could not find specified account(s)."])
  = ((None, Some "exit status 1: Error: Could not find specified account(s)."),
     (LastPass.List
        (ready [exited 0 ("a" +:+ nl +:+ "b" +:+ nl) EmptyString;
                exited 0 ("https://a.example" +:+ nl) EmptyString;
                exited 0 ("alice" +:+ nl) EmptyString;
                exited 0 ("https://b.example" +:+ nl) EmptyString;
                exited 1 EmptyString "Error: Could not find specified account(s)."])).2).
Proof.
  destruct (List_fail_fast (W := Scripted)) as [_ Hfail].
  eapply (Hfail _ _ _ _ ("a" +:+ nl +:+ "b") ["a"] "b" []).
  - reflexivity.
  - reflexivity.
  - reflexivity.
  - right. eexists _, _, _. split; reflexivity.
Defined.

(** Two identifiers that resolve to the same URL: the second username stays. *)
Lemma List_success_last_write_wins_witness :
  ∃ rs : list (RunResult * RunResult),
    length rs = length (GoStrings.Split ("a" +:+ nl +:+ "b") LF)
    ∧ trace (LastPass.List
               (ready [exited 0 ("a" +:+ nl +:+ "b" +:+ nl) EmptyString;
                       exited 0 ("https://x.example" +:+ nl) EmptyString;
                       exited 0 ("alice" +:+ nl) EmptyString;
                       exited 0 ("https://x.example" +:+ nl) EmptyString;
                       exited 0 ("bob" +:+ nl) EmptyString])).2
      = [EvRun ls_cmd (exited 0 ("a" +:+ nl +:+ "b" +:+ nl) EmptyString)]
        ++ concat (zip_with show_events (GoStrings.Split ("a" +:+ nl +:+ "b") LF) rs)
    ∧ Forall (λ r, run_err r.1 = None ∧ run_err r.2 = None) rs
    ∧ ({[ "https://x.example" := "bob" ]} : gmap string string)
      = foldl store_pair ∅ (entry_pair <$> rs)
    ∧ ∀ url, ({[ "https://x.example" := "bob" ]} : gmap string string) !! url
             = last_wins (entry_pair <$> rs) url.
Proof.
  apply (List_success_last_write_wins (W := Scripted)
           (ready [exited 0 ("a" +:+ nl +:+ "b" +:+ nl) EmptyString;
                   exited 0 ("https://x.example" +:+ nl) EmptyString;
                   exited 0 ("alice" +:+ nl) EmptyString;
                   exited 0 ("https://x.example" +:+ nl) EmptyString;
                   exited 0 ("bob" +:+ nl) EmptyString])
           (mkProc true
              (mkScripted [exited 0 ("https://x.example" +:+ nl) EmptyString;
                           exited 0 ("alice" +:+ nl) EmptyString;
                           exited 0 ("https://x.example" +:+ nl) EmptyString;
                           exited 0 ("bob" +:+ nl) EmptyString] EmptyString)
              [EvRun ls_cmd (exited 0 ("a" +:+ nl +:+ "b" +:+ nl) EmptyString)])
           _ ("a" +:+ nl +:+ "b") {[ "https://x.example" := "bob" ]}).
  - reflexivity.
  - vm_compute. reflexivity.
Defined.

(** A listing of three lines, the second one blank, all lookups
    succeeding: three iterations; and a listing with no output whose two
    lookups succeed: one iteration, on the empty identifier. *)
Lemma List_iterates_over_every_segment_witness :
  (∃ rs : list (RunResult * RunResult),
      length rs = 3
      ∧ trace (LastPass.List
                 (ready [exited 0 ("a" +:+ nl +:+ nl +:+ "b" +:+ nl) EmptyString;
                         exited 0 ("https://a.example" +:+ nl) EmptyString;
                         exited 0 ("alice" +:+ nl) EmptyString;
                         exited 0 ("https://blank.example" +:+ nl) EmptyString;
                         exited 0 ("nobody" +:+ nl) EmptyString;
                         exited 0 ("https://b.example" +:+ nl) EmptyString;
                         exited 0 ("bob" +:+ nl) EmptyString])).2
        = [EvRun ls_cmd (exited 0 ("a" +:+ nl +:+ nl +:+ "b" +:+ nl) EmptyString)]
          ++ concat (zip_with show_events ["a"; EmptyString; "b"] rs) ++ []
      ∧ (LastPass.List
           (ready [exited 0 ("a" +:+ nl +:+ nl +:+ "b" +:+ nl) EmptyString;
                   exited 0 ("https://a.example" +:+ nl) EmptyString;
                   exited 0 ("alice" +:+ nl) EmptyString;
                   exited 0 ("https://blank.example" +:+ nl) EmptyString;
                   exited 0 ("nobody" +:+ nl) EmptyString;
                   exited 0 ("https://b.example" +:+ nl) EmptyString;
                   exited 0 ("bob" +:+ nl) EmptyString])).1
        = (Some (foldl store_pair ∅ (entry_pair <$> rs)), None))
  ∧ (∃ ru rest,
        trace (LastPass.List
                 (ready [exited 0 nl EmptyString;
                         exited 0 ("https://x.example" +:+ nl) EmptyString;
                         exited 0 ("alice" +:+ nl) EmptyString])).2
        = [EvRun ls_cmd (exited 0 nl EmptyString)]
          ++ EvRun (show_cmd "--url" EmptyString) ru :: rest
        ∧ (run_err ru = None →
           ∃ rn, rest = [EvRun (show_cmd "--user" EmptyString) rn]))
  ∧ (LastPass.List
       (ready [exited 0 nl EmptyString;
               exited 0 ("https://x.example" +:+ nl) EmptyString;
               exited 0 ("alice" +:+ nl) EmptyString])).1 ≠ (Some ∅, None).
Proof.
  split_and!.
  - destruct (List_iterates_over_every_segment (W := Scripted)
                (ready [exited 0 ("a" +:+ nl +:+ nl +:+ "b" +:+ nl) EmptyString;
                        exited 0 ("https://a.example" +:+ nl) EmptyString;
                        exited 0 ("alice" +:+ nl) EmptyString;
                        exited 0 ("https://blank.example" +:+ nl) EmptyString;
                        exited 0 ("nobody" +:+ nl) EmptyString;
                        exited 0 ("https://b.example" +:+ nl) EmptyString;
                        exited 0 ("bob" +:+ nl) EmptyString])
                (mkProc true
                   (mkScripted
                      [exited 0 ("https://a.example" +:+ nl) EmptyString;
                       exited 0 ("alice" +:+ nl) EmptyString;
                       exited 0 ("https://blank.example" +:+ nl) EmptyString;
                       exited 0 ("nobody" +:+ nl) EmptyString;
                       exited 0 ("https://b.example" +:+ nl) EmptyString;
                       exited 0 ("bob" +:+ nl) EmptyString] EmptyString)
                   [EvRun ls_cmd
                      (exited 0 ("a" +:+ nl +:+ nl +:+ "b" +:+ nl) EmptyString)])
                ("a" +:+ nl +:+ nl +:+ "b"))
      as (_ & _ & (rs & tail & Htr & _ & Hend) & _); [reflexivity|].
    destruct Hend as [(Hlen & Htail & Hres)|(entry & e & _ & Hres & _)].
    + exists rs. subst tail. split_and!; [exact Hlen|exact Htr|exact Hres].
    + vm_compute in Hres. discriminate Hres.
  - destruct (List_iterates_over_every_segment (W := Scripted)
                (ready [exited 0 nl EmptyString;
                        exited 0 ("https://x.example" +:+ nl) EmptyString;
                        exited 0 ("alice" +:+ nl) EmptyString])
                (mkProc true
                   (mkScripted
                      [exited 0 ("https://x.example" +:+ nl) EmptyString;
                       exited 0 ("alice" +:+ nl) EmptyString] EmptyString)
                   [EvRun ls_cmd (exited 0 nl EmptyString)])
                EmptyString) as (_ & Hempty & _); [reflexivity|].
    exact (Hempty eq_refl).
  - destruct (List_iterates_over_every_segment (W := Scripted)
                (ready [exited 0 nl EmptyString;
                        exited 0 ("https://x.example" +:+ nl) EmptyString;
                        exited 0 ("alice" +:+ nl) EmptyString])
                (mkProc true
                   (mkScripted
                      [exited 0 ("https://x.example" +:+ nl) EmptyString;
                       exited 0 ("alice" +:+ nl) EmptyString] EmptyString)
                   [EvRun ls_cmd (exited 0 nl EmptyString)])
                EmptyString) as (_ & _ & _ & Hne & _); [reflexivity|].
    exact Hne.
Defined.

(** ** [Add] *)

Section AddTheorems.
Context {W : Type} `{!World W} `{!Strconv}.

(** C1, as the code has it: after its [Get] for the server URL, [Add]
    runs [lpass add] when that [Get] succeeded and [lpass edit] when it
    failed, with the field block on standard input; the branches are the
    other way round from what the comment above them announces. *)
Theorem Add_runs_add_when_Get_succeeds
    (creds : Credentials) (domain : string) (p p1 : Proc W)
    (username secret : string) (gerr : error) :
  LastPass.domainInURL (ServerURL creds) = (domain, None) →
  LastPass.Get (ServerURL creds) p = ((username, secret, gerr), p1) →
  LastPass.Add (Some creds) p =
    let '((_, err), p2) :=
      LastPass.runLastPass (field_block creds)
        [match gerr with Some _ => "edit" | None => "add" end;
         "--non-interactive";
         GoPath.Join [LastPass.LASTPASS_FOLDER; domain]] p1 in
    (err, p2).
Proof.
  intros Hdomain HGet. unfold LastPass.Add. rewrite Hdomain.
  unfold mbind, M_bind. rewrite HGet. fold (field_block creds).
  destruct gerr as [e|];
    by destruct (LastPass.runLastPass _ _ p1) as [[out err] p2].
Qed.

End AddTheorems.

(** An entry for [example.com] exists ([Get] returns its username and
    secret): [Add] creates a second one with [lpass add]. *)
Lemma Add_runs_add_when_Get_succeeds_witness :
  (LastPass.Get "https://example.com"
     (ready [exited 0 ("alice" +:+ nl) EmptyString;
             exited 0 ("old" +:+ nl) EmptyString;
             exited 0 EmptyString EmptyString])).1
  = ("alice", "old", None)
  ∧ LastPass.Add (Some (mkCredentials "https://example.com" "alice" "s3cr3t"))
      (ready [exited 0 ("alice" +:+ nl) EmptyString;
              exited 0 ("old" +:+ nl) EmptyString;
              exited 0 EmptyString EmptyString])
    = (None,
       mkProc true (mkScripted [] EmptyString)
         [EvRun (show_cmd "--user" "Docker Credentials/example.com")
                (exited 0 ("alice" +:+ nl) EmptyString);
          EvRun (show_cmd "--pass" "Docker Credentials/example.com")
                (exited 0 ("old" +:+ nl) EmptyString);
          EvRun (mkCmd "lpass"
                   ["add"; "--non-interactive"; "Docker Credentials/example.com"]
                   (Some ("URL: https://example.com" +:+ nl +:+
                          "Username: alice" +:+ nl +:+
                          "Password: s3cr3t" +:+ nl)))
                (exited 0 EmptyString EmptyString)]).
Proof.
  split; [reflexivity|].
  rewrite (Add_runs_add_when_Get_succeeds (W := Scripted)
             (mkCredentials "https://example.com" "alice" "s3cr3t")
             "example.com"
             (ready [exited 0 ("alice" +:+ nl) EmptyString;
                     exited 0 ("old" +:+ nl) EmptyString;
                     exited 0 EmptyString EmptyString])
             (mkProc true (mkScripted [exited 0 EmptyString EmptyString] EmptyString)
                [EvRun (show_cmd "--user" "Docker Credentials/example.com")
                       (exited 0 ("alice" +:+ nl) EmptyString);
                 EvRun (show_cmd "--pass" "Docker Credentials/example.com")
                       (exited 0 ("old" +:+ nl) EmptyString)])
             "alice" "old" None); reflexivity.
Defined.

(** ** Entry identifiers *)

Lemma Split_no_sep (s : string) (sep : ascii) :
  GoStrings.IndexByte s sep = None → GoStrings.Split s sep = [s].
Proof.
  induction s as [|c s IH]; [done|].
  cbn [GoStrings.IndexByte GoStrings.Split].
  destruct (decide (c = sep)); [done|].
  destruct (GoStrings.IndexByte s sep); [done|]. intros _. by rewrite IH.
Qed.

Lemma Split_app_sep (a b : string) (sep : ascii) :
  GoStrings.IndexByte a sep = None →
  GoStrings.Split (a +:+ String sep b) sep = a :: GoStrings.Split b sep.
Proof.
  induction a as [|c a IH].
  - intros _. rewrite append_nil_l. cbn [GoStrings.Split].
    by destruct (decide (sep = sep)).
  - cbn [GoStrings.IndexByte]. destruct (decide (c = sep)); [done|].
    destruct (GoStrings.IndexByte a sep) eqn:E; [done|]. intros _.
    rewrite append_cons. cbn [GoStrings.Split].
    destruct (decide (c = sep)); [done|]. by rewrite IH.
Qed.

(** What [path.Join] makes of the folder and a host without a slash. *)
Lemma Join_folder (host : string) :
  GoStrings.IndexByte host GoPath.slash = None →
  GoPath.Join [LastPass.LASTPASS_FOLDER; host] =
    if decide (host = EmptyString ∨ host = ".") then LastPass.LASTPASS_FOLDER
    else if decide (host = "..") then "."
    else LastPass.LASTPASS_FOLDER +:+ "/" +:+ host.
Proof.
  intros Hhost.
  destruct (decide (host = EmptyString ∨ host = ".")) as [[->| ->]|Hne];
    [reflexivity|reflexivity|].
  destruct (decide (host = "..")) as [->|H2]; [reflexivity|].
  assert (H0 : host ≠ EmptyString) by tauto.
  assert (H1 : host ≠ ".") by tauto.
  unfold GoPath.Join.
  change (forallb _ _) with false. cbv iota.
  change (GoPath.Join_buf EmptyString [LastPass.LASTPASS_FOLDER; host])
    with (LastPass.LASTPASS_FOLDER +:+ String GoPath.slash host).
  unfold GoPath.Clean.
  change (LastPass.LASTPASS_FOLDER +:+ String GoPath.slash host)
    with (String "D" ("ocker Credentials" +:+ String GoPath.slash host)) at 1.
  cbv iota. rewrite bool_decide_false by done. cbv zeta.
  rewrite (Split_app_sep LastPass.LASTPASS_FOLDER host GoPath.slash) by done.
  rewrite (Split_no_sep host) by done.
  cbn [GoPath.Clean_elems].
  rewrite (decide_False (P := LastPass.LASTPASS_FOLDER = EmptyString)) by done.
  rewrite (decide_False (P := LastPass.LASTPASS_FOLDER = ".")) by done.
  rewrite (decide_False (P := LastPass.LASTPASS_FOLDER = "..")) by done.
  rewrite (decide_False (P := host = EmptyString)) by done.
  rewrite (decide_False (P := host = ".")) by done.
  rewrite (decide_False (P := host = "..")) by done.
  reflexivity.
Qed.

(** ** No host has a slash *)

Lemma forallb_all_ascii (P : ascii → bool) :
  forallb P all_ascii = true → ∀ c, P c = true.
Proof.
  intros Hall c. rewrite forallb_forall in Hall. apply Hall.
  rewrite <- (ascii_nat_embedding c). unfold all_ascii.
  apply in_map, in_seq. pose proof (nat_ascii_bounded c). lia.
Qed.

(** A byte that [unescape] lets through in a host or a zone is not a slash. *)
Lemma host_byte_not_slash (c : ascii) :
  (nat_of_ascii c <? 128) && GoURL.shouldEscape c GoURL.encodeHost = false →
  c ≠ GoPath.slash.
Proof. intros Hc ->. vm_compute in Hc. discriminate. Qed.

Lemma unhex_bound (c : ascii) : GoURL.unhex c < 16.
Proof.
  assert (H : (GoURL.unhex c <? 16) = true).
  { revert c. apply forallb_all_ascii. vm_compute. reflexivity. }
  by apply Nat.ltb_lt.
Qed.

(** Nor is a byte it decodes there from a percent escape. *)
Lemma host_escape_not_slash (mode : GoURL.encoding) (h1 h2 : ascii) :
  mode = GoURL.encodeHost ∨ mode = GoURL.encodeZone →
  bool_decide (mode = GoURL.encodeHost) && (GoURL.unhex h1 <? 8)
    && negb (bool_decide (h1 = "2"%char ∧ h2 = "5"%char)) = false →
  bool_decide (mode = GoURL.encodeZone)
    && negb (bool_decide (h1 = "2"%char ∧ h2 = "5"%char))
    && negb (bool_decide (ascii_of_nat (GoURL.unhex h1 * 16 + GoURL.unhex h2)
                          = " "%char))
    && GoURL.shouldEscape (ascii_of_nat (GoURL.unhex h1 * 16 + GoURL.unhex h2))
                          GoURL.encodeHost = false →
  ascii_of_nat (GoURL.unhex h1 * 16 + GoURL.unhex h2) ≠ GoPath.slash.
Proof.
  intros Hmode Hhost Hzone Hv. rewrite Hv in Hzone.
  pose proof (unhex_bound h1) as B1. pose proof (unhex_bound h2) as B2.
  apply (f_equal nat_of_ascii) in Hv. rewrite nat_ascii_embedding in Hv by lia.
  change (nat_of_ascii GoPath.slash) with 47 in Hv.
  assert (H1 : GoURL.unhex h1 = 2) by lia.
  assert (H2 : GoURL.unhex h2 = 15) by lia.
  assert (H25 : bool_decide (h1 = "2"%char ∧ h2 = "5"%char) = false).
  { apply bool_decide_eq_false. intros [_ ->]. vm_compute in H2. discriminate. }
  rewrite H25, H1 in *.
  destruct Hmode as [-> | ->]; vm_compute in Hhost, Hzone; discriminate.
Qed.

Lemma slash_free_cons (c : ascii) (s : string) :
  slash_free (String c s) ↔ c ≠ GoPath.slash ∧ slash_free s.
Proof.
  unfold slash_free. cbn [GoStrings.IndexByte].
  destruct (decide (c = GoPath.slash)) as [Hc|Hc].
  - split; [discriminate|]. intros [Hne _]. by destruct Hne.
  - destruct (GoStrings.IndexByte s GoPath.slash); cbn [fmap option_fmap option_map].
    + split; [discriminate|]. intros [_ Hs]. discriminate.
    + by split.
Qed.

Lemma slash_free_app (a b : string) :
  slash_free a → slash_free b → slash_free (a +:+ b).
Proof.
  induction a as [|c a IH]; [done|].
  rewrite append_cons, !slash_free_cons. intros [Hc Ha] Hb. auto.
Qed.

Lemma slash_free_slice_to (n : nat) (s : string) :
  slash_free s → slash_free (GoStrings.slice_to n s).
Proof.
  revert s. induction n as [|n IH]; intros [|c s]; try done.
  cbn [GoStrings.slice_to]. rewrite !slash_free_cons. intros [Hc Hs]. auto.
Qed.

Lemma slash_free_slice_from (n : nat) (s : string) :
  slash_free s → slash_free (GoStrings.slice_from n s).
Proof.
  revert s. induction n as [|n IH]; intros [|c s]; try done.
  cbn [GoStrings.slice_from]. rewrite slash_free_cons. intros [Hc Hs]. auto.
Qed.

(** The part of a string before its first slash has none. *)
Lemma slash_free_before (s : string) (i : nat) :
  GoStrings.IndexByte s GoPath.slash = Some i →
  slash_free (GoStrings.slice_to i s).
Proof.
  revert i. induction s as [|c s IH]; intros i; [done|].
  cbn [GoStrings.IndexByte]. destruct (decide (c = GoPath.slash)).
  - by intros [= <-].
  - destruct (GoStrings.IndexByte s GoPath.slash) as [j|] eqn:E; [|done].
    intros [= <-]. cbn [GoStrings.slice_to]. rewrite slash_free_cons. auto.
Qed.

(** What [unescape] returns for a host or a zone has no slash. *)
Lemma unescape_slash_free (mode : GoURL.encoding) (s t : string) :
  mode = GoURL.encodeHost ∨ mode = GoURL.encodeZone →
  GoURL.unescape s mode = GoURL.Ok t → slash_free t.
Proof.
  intros Hmode. unfold GoURL.unescape.
  destruct (GoURL.unescape_check s mode) eqn:Hcheck; [done|].
  intros [= <-]. revert Hcheck.
  assert (Hlen : ∃ n, String.length s ≤ n) by (by exists (String.length s)).
  destruct Hlen as [n Hlen]. revert s Hlen.
  induction n as [|n IH]; intros [|c rest] Hlen; try done.
  { cbn in Hlen. lia. }
  cbn [GoURL.unescape_check GoURL.unescape_decode].
  destruct (decide (c = "%"%char)) as [->|Hc].
  - destruct rest as [|h1 [|h2 rest']]; try done.
    destruct (negb (GoURL.ishex h1 && GoURL.ishex h2)); [done|].
    destruct (_ && _ && negb _) eqn:Hhost; [done|].
    destruct (_ && _ && negb _ && _) eqn:Hzone; [done|].
    intros Hrest. rewrite slash_free_cons. split.
    + by apply (host_escape_not_slash mode).
    + apply IH; [cbn in Hlen; lia|done].
  - rewrite (bool_decide_true (mode = GoURL.encodeHost ∨ mode = GoURL.encodeZone))
      by done.
    rewrite andb_true_l.
    destruct (_ && GoURL.shouldEscape c GoURL.encodeHost) eqn:Hbyte; [done|].
    intros Hrest.
    assert (Hdec : GoURL.unescape_decode (String c rest) mode
                   = String c (GoURL.unescape_decode rest mode)).
    { cbn [GoURL.unescape_decode]. destruct (decide (c = "%"%char)); [done|].
      rewrite bool_decide_false; [done|]. intros [_ ->]. by destruct Hmode. }
    cbn [GoURL.unescape_decode] in Hdec. 
    destruct (decide (c = "%"%char)); [done|]. rewrite Hdec.
    rewrite slash_free_cons. split.
    + by apply host_byte_not_slash.
    + apply IH; [cbn in Hlen; lia|done].
Qed.

Lemma parseHost_slash_free (host t : string) :
  GoURL.parseHost host = GoURL.Ok t → slash_free t.
Proof.
  unfold GoURL.parseHost.
  assert (Hplain : GoURL.unescape host GoURL.encodeHost = GoURL.Ok t → slash_free t).
  { apply unescape_slash_free. by left. }
  destruct (GoStrings.HasPrefix host "[").
  - destruct (GoStrings.LastIndexByte host "]"%char) as [i|]; [|done].
    destruct (negb _); [done|].
    destruct (GoStrings.Index _ "%25") as [zone|]; [|done].
    unfold mbind, GoURL.result_bind.
    destruct (GoURL.unescape (GoStrings.slice_to zone host) _) as [host1|] eqn:E1;
      [|done].
    destruct (GoURL.unescape (GoStrings.slice_from zone _) _) as [host2|] eqn:E2;
      [|done].
    destruct (GoURL.unescape (GoStrings.slice_from i host) _) as [host3|] eqn:E3;
      [|done].
    intros [= <-].
    apply unescape_slash_free in E1, E2, E3; auto.
    by repeat apply slash_free_app.
  - destruct (GoStrings.LastIndexByte host ":"%char) as [i|]; [|done].
    by destruct (negb _).
Qed.

Lemma parseAuthority_slash_free (authority host : string)
    (user : option (string * option string)) :
  GoURL.parseAuthority authority = GoURL.Ok (user, host) → slash_free host.
Proof.
  unfold GoURL.parseAuthority. unfold mbind, GoURL.result_bind.
  destruct (GoStrings.LastIndexByte authority "@"%char) as [i|].
  - destruct (GoURL.parseHost _) as [h|] eqn:Eh; [|done].
    apply parseHost_slash_free in Eh.
    destruct (negb _); [done|].
    destruct (GoStrings.Cut _ _) as [[username password] found].
    destruct found.
    + destruct (GoURL.unescape username _); [|done].
      destruct (GoURL.unescape password _); [|done]. by intros [= _ <-].
    + destruct (GoURL.unescape _ _); [|done]. by intros [= _ <-].
  - destruct (GoURL.parseHost _) as [h|] eqn:Eh; [|done].
    apply parseHost_slash_free in Eh. by intros [= _ <-].
Qed.

Lemma parse_Host_slash_free (rawURL : string) (u : GoURL.URL) :
  GoURL.parse rawURL = GoURL.Ok u → slash_free (GoURL.Host u).
Proof.
  unfold GoURL.parse.
  destruct (GoURL.stringContainsCTLByte rawURL); [done|].
  destruct (decide (rawURL = "*")); [by intros [= <-]|].
  unfold mbind, GoURL.result_bind.
  destruct (GoURL.getScheme rawURL) as [[scheme rest0]|]; [|done].
  destruct (if GoStrings.HasSuffix rest0 "?" && _ then _ else _)
    as [[rest rawQuery] forceQuery].
  destruct (negb (GoStrings.HasPrefix rest "/") && negb _); [by intros [= <-]|].
  destruct (negb (GoStrings.HasPrefix rest "/") && GoStrings.Contains_byte _ _);
    [done|].
  destruct (_ && GoStrings.HasPrefix rest "//").
  - destruct (match GoStrings.IndexByte _ _ with Some _ => _ | None => _ end)
      as [authority rest'].
    destruct (GoURL.parseAuthority authority) as [[user host]|] eqn:Ea; [|done].
    apply parseAuthority_slash_free in Ea.
    destruct (GoURL.unescape rest' _); [|done]. by intros [= <-].
  - destruct (GoURL.unescape rest _); [|done]. by intros [= <-].
Qed.

(** The host name of a URL that parsed has no slash. *)
Lemma Hostname_slash_free (rawURL : string) (u : GoURL.URL) :
  GoURL.Parse rawURL = GoURL.Ok u → slash_free (GoURL.Hostname u).
Proof.
  unfold GoURL.Parse. destruct (GoStrings.Cut rawURL "#"%char) as [[raw frag] found].
  unfold mbind, GoURL.result_bind.
  destruct (GoURL.parse raw) as [url|] eqn:Eu; [|done].
  apply parse_Host_slash_free in Eu.
  assert (Hn : slash_free (GoURL.splitHostPort_host (GoURL.Host url))).
  { unfold GoURL.splitHostPort_host.
    destruct (GoStrings.LastIndexByte _ _) as [colon|].
    - destruct (GoURL.validOptionalPort _).
      + destruct (_ && _); repeat first
          [apply slash_free_slice_to | apply slash_free_slice_from]; done.
      + destruct (_ && _); repeat first
          [apply slash_free_slice_to | apply slash_free_slice_from]; done.
    - destruct (_ && _); repeat first
        [apply slash_free_slice_to | apply slash_free_slice_from]; done. }
  destruct (decide (frag = EmptyString)); [by intros [= <-]|].
  destruct (GoURL.unescape frag _); [|done]. by intros [= <-].
Qed.

(** [Get] looks up the entry identifier of its server URL. *)
Lemma Get_EntryIdentifier {W : Type} `{!World W} `{!Strconv}
    (serverURL : string) (p : Proc W) :
  serverURL ≠ EmptyString →
  LastPass.Get serverURL p =
  match EntryIdentifier serverURL with
  | (_, Some e) => ((EmptyString, EmptyString, Some e), p)
  | (entryID, None) =>
      let '((username, err), p1) :=
        LastPass.runLastPass EmptyString ["show"; "--user"; entryID] p in
      match err with
      | Some e => ((EmptyString, EmptyString, Some e), p1)
      | None =>
          let '((secret, err), p2) :=
            LastPass.runLastPass EmptyString ["show"; "--pass"; entryID] p1 in
          match err with
          | Some e => ((EmptyString, EmptyString, Some e), p2)
          | None => ((username, secret, None), p2)
          end
      end
  end.
Proof.
  intros Hne. unfold LastPass.Get, EntryIdentifier.
  rewrite decide_False by done.
  destruct (LastPass.domainInURL serverURL) as [domain [e|]]; [done|].
  unfold mbind, M_bind.
  destruct (LastPass.runLastPass _ _ p) as [[username [e|]] p1]; [done|].
  by destruct (LastPass.runLastPass _ _ p1) as [[secret [e|]] p2].
Qed.

(** C4, as the code has it: two server URLs that parse and have the same
    host name have the same entry identifier; when their host names
    differ the identifiers differ, unless one host name is empty and the
    other is [.], which [path.Join] both folds into the folder itself; and
    a server URL that does not parse gives no identifier but the error of
    the parser, a [*url.Error] of operation [parse], whose text is what
    [domainInURL] returns as its error. *)
Theorem EntryIdentifier_by_host {quote : Strconv} :
  (∀ s1 s2 u1 u2,
      GoURL.Parse s1 = GoURL.Ok u1 →
      GoURL.Parse s2 = GoURL.Ok u2 →
      (GoURL.Hostname u1 = GoURL.Hostname u2 →
       EntryIdentifier s1 = EntryIdentifier s2)
      ∧ (GoURL.Hostname u1 ≠ GoURL.Hostname u2 →
         ¬ (GoURL.Hostname u1 = EmptyString ∧ GoURL.Hostname u2 = "."
            ∨ GoURL.Hostname u1 = "." ∧ GoURL.Hostname u2 = EmptyString) →
         EntryIdentifier s1 ≠ EntryIdentifier s2))
  ∧ (∀ s err,
      GoURL.Parse s = GoURL.Err err →
      LastPass.domainInURL s = (EmptyString, Some (GoURL.Error_text err))
      ∧ EntryIdentifier s = (EmptyString, Some (GoURL.Error_text err))
      ∧ ∃ URL cause,
          err = GoURL.url_Error "parse" URL cause
          ∧ GoURL.Error_text err
            = "parse " +:+ strconv_Quote URL +:+ ": " +:+ GoURL.Error_text cause).
Proof.
  split.
  - intros s1 s2 u1 u2 H1 H2.
    pose proof (Hostname_slash_free s1 u1 H1) as F1.
    pose proof (Hostname_slash_free s2 u2 H2) as F2.
    unfold EntryIdentifier, LastPass.domainInURL. rewrite H1, H2.
    split; [by intros ->|].
    intros Hne Hpair. rewrite !Join_folder by done.
    set (h1 := GoURL.Hostname u1) in *. set (h2 := GoURL.Hostname u2) in *.
    assert (Hfolder : ∀ h, LastPass.LASTPASS_FOLDER
                           ≠ LastPass.LASTPASS_FOLDER +:+ "/" +:+ h).
    { intros h Heq.
      rewrite <- (append_nil_r LastPass.LASTPASS_FOLDER) in Heq at 1.
      apply (inj (String.append _)) in Heq. discriminate. }
    assert (Hdot : ∀ h, "." ≠ LastPass.LASTPASS_FOLDER +:+ "/" +:+ h).
    { intros h. discriminate. }
    assert (Hdot' : LastPass.LASTPASS_FOLDER ≠ ".") by discriminate.
    intros Heq. apply (f_equal fst) in Heq. cbn [fst] in Heq. revert Heq.
    destruct (decide (h1 = EmptyString ∨ h1 = ".")) as [E1|E1];
      destruct (decide (h2 = EmptyString ∨ h2 = ".")) as [E2|E2].
    + intros _. apply Hpair.
      destruct E1 as [E1|E1], E2 as [E2|E2]; auto; congruence.
    + destruct (decide (h2 = "..")); [apply Hdot'|apply Hfolder].
    + destruct (decide (h1 = "..")); intros Heq; symmetry in Heq; revert Heq;
        [apply Hdot'|apply Hfolder].
    + destruct (decide (h1 = "..")) as [E1'|E1'];
        destruct (decide (h2 = "..")) as [E2'|E2'].
      * congruence.
      * apply Hdot.
      * intros Heq. symmetry in Heq. revert Heq. apply Hdot.
      * intros Heq. do 2 apply (inj (String.append _)) in Heq. congruence.
  - intros s err He. unfold EntryIdentifier, LastPass.domainInURL. rewrite He.
    split_and!; [done|done|]. revert He. unfold GoURL.Parse.
    destruct (GoStrings.Cut s "#"%char) as [[u frag] found].
    destruct (GoURL.parse u) as [url|cause]; [|intros [= <-]; by eexists _, _].
    destruct (decide (frag = EmptyString)); [done|].
    destruct (GoURL.unescape frag _) as [fragment|cause]; [done|].
    intros [= <-]. by eexists _, _.
Qed.

(** Two registries with different hosts, and a server URL with a bad escape. *)
Lemma EntryIdentifier_by_host_witness :
  EntryIdentifier "https://example.com/login" = EntryIdentifier "https://example.com"
  ∧ EntryIdentifier "https://example.com" ≠ EntryIdentifier "https://example.org"
  ∧ EntryIdentifier "https://example.com/%zz"
    = (EmptyString,
       Some ("parse " +:+ quoted "https://example.com/%zz"
             +:+ ": invalid URL escape " +:+ quoted "%zz")).
Proof.
  destruct (EntryIdentifier_by_host (quote := Strconv_ASCII)) as [Hhost Herr].
  split_and!.
  - eapply (Hhost "https://example.com/login" "https://example.com");
      reflexivity.
  - eapply (Hhost "https://example.com" "https://example.org").
    + reflexivity.
    + reflexivity.
    + vm_compute. discriminate.
    + vm_compute. intros [[Hcom _]|[Hcom _]]; discriminate.
  - apply (Herr "https://example.com/%zz"
             (GoURL.url_Error "parse" "https://example.com/%zz"
                (GoURL.EscapeError "%zz"))).
    reflexivity.
Defined.

(** C4 as stated fails: the server URLs [registry] and [https://./] both
    parse, their host names, the empty one and [.], differ, and the entry
    identifier of both is the folder itself. *)
Lemma EntryIdentifier_collision :
  LastPass.domainInURL "registry" = (EmptyString, None)
  ∧ LastPass.domainInURL "https://./" = (".", None)
  ∧ EntryIdentifier "registry" = ("Docker Credentials", None)
  ∧ EntryIdentifier "https://./" = ("Docker Credentials", None).
Proof. split_and!; reflexivity. Qed.

(** * Further properties of the package *)

(** ** The session guard, call by call *)

Section SessionGuardMore.
Context {W : Type} `{!World W} `{!Strconv}.

(** X1: [checkInitialized] returns nil exactly when [lpassInitialized] is
    true after the call, from whatever state it was called. *)
Theorem checkInitialized_nil_iff_flag (p : Proc W) :
  (LastPass.checkInitialized p).1 = None
  ↔ lpassInitialized (LastPass.checkInitialized p).2 = true.
Proof.
  split.
  - destruct (LastPass.checkInitialized p) as [res p'] eqn:Hc. cbn [fst snd].
    intros ->. by eapply checkInitialized_ok_flag.
  - destruct (lpassInitialized p) eqn:Hp.
    + by rewrite (checkInitialized_fast p Hp).
    + intros Hset.
      assert (Hprobe : ∀ q, lpassInitialized q = false →
                lpassInitialized (LastPass.checkInitialized_probe q).2 = true →
                (LastPass.checkInitialized_probe q).1 = None).
      { intros q Hq Hq'. by apply checkInitialized_probe_last in Hq' as [? _]. }
      revert Hset. rewrite (checkInitialized_unfold p Hp).
      destruct (exec_Run status_probe (world p)) as [r1 w1].
      destruct (run_err r1); [|by apply Hprobe].
      destruct (ReadString (stdin_pending w1) LF) as [user rerr].
      destruct (exec_Run (login_cmd user) (stdin_advance w1)) as [r2 w2].
      destruct (run_err r2); [done|by apply Hprobe].
Qed.

(** X2: one call of [checkInitialized] from the uninitialized state runs
    the status probe once or twice and the login subcommand at most once,
    three subprocesses at most; it prompts and reads a line exactly when
    it runs the login subcommand, which it does exactly when the first
    probe failed. *)
Theorem checkInitialized_spawn_bounds (p : Proc W) :
  lpassInitialized p = false →
  ∃ evs,
    trace (LastPass.checkInitialized p).2 = trace p ++ evs
    ∧ 1 ≤ count_events is_probe evs ≤ 2
    ∧ count_events is_login evs ≤ 1
    ∧ count_events is_prompt evs = count_events is_login evs
    ∧ count_events is_read evs = count_events is_login evs
    ∧ length evs = count_events is_probe evs + 3 * count_events is_login evs
    ∧ (count_events is_login evs = 1
       ↔ run_err (exec_Run status_probe (world p)).1 ≠ None).
Proof.
  intros Hp. rewrite (checkInitialized_unfold p Hp).
  destruct (exec_Run status_probe (world p)) as [r1 w1]. cbn [fst].
  destruct (run_err r1) as [e1|].
  - destruct (ReadString (stdin_pending w1) LF) as [user rerr].
    destruct (exec_Run (login_cmd user) (stdin_advance w1)) as [r2 w2].
    destruct (run_err r2) as [e2|].
    + eexists. split; [reflexivity|]. cbn. repeat split; (lia || done).
    + rewrite checkInitialized_probe_unfold. cbn [world trace lpassInitialized].
      destruct (exec_Run status_probe w2) as [r3 w3].
      exists [EvRun status_probe r1; EvPrint "Enter your LastPass username: ";
              EvReadString user rerr; EvRun (login_cmd user) r2;
              EvRun status_probe r3].
      split; [by destruct (run_err r3); cbn [snd trace]; rewrite <- app_assoc|].
      cbn. repeat split; (lia || done).
  - rewrite checkInitialized_probe_unfold. cbn [world trace lpassInitialized].
    destruct (exec_Run status_probe w1) as [r2 w2].
    exists [EvRun status_probe r1; EvRun status_probe r2].
    split; [by destruct (run_err r2); cbn [snd trace]; rewrite <- app_assoc|].
    cbn. repeat split; (lia || done).
Qed.

End SessionGuardMore.

(** ** The operations and the guard *)

Section OperationsMore.
Context {W : Type} `{!World W} `{!Strconv}.

Lemma domainInURL_ok (serverURL : string) (u : GoURL.URL) :
  GoURL.Parse serverURL = GoURL.Ok u →
  LastPass.domainInURL serverURL = (GoURL.Hostname u, None).
Proof. intros Hu. unfold LastPass.domainInURL. by rewrite Hu. Qed.

Lemma runLastPass_guard_fail (stdinContent : string) (args : list string)
    (p p1 : Proc W) (e : string) :
  LastPass.checkInitialized p = (Some e, p1) →
  LastPass.runLastPass stdinContent args p = ((EmptyString, Some e), p1).
Proof. intros Hc. unfold LastPass.runLastPass, mbind, M_bind. by rewrite Hc. Qed.

(** An error of [runLastPass] comes with the empty string. *)
Lemma runLastPass_err_empty (stdinContent : string) (args : list string)
    (p p' : Proc W) (out e : string) :
  LastPass.runLastPass stdinContent args p = ((out, Some e), p') →
  out = EmptyString.
Proof.
  unfold LastPass.runLastPass, mbind, M_bind.
  destruct (LastPass.checkInitialized p) as [[e0|] p1]; [by intros [= <- _ _]|].
  rewrite runLastPassHelper_unfold.
  destruct (exec_Run _ _) as [r w']. destruct (run_err r); [|done].
  by intros [= <- _ _].
Qed.

(** A successful [runLastPass] ends with the run of its command, which
    exited with status 0; what it returns is the trimmed output, and the
    flag is set. *)
Lemma runLastPass_ok_last (stdinContent : string) (args : list string)
    (p p' : Proc W) (out : string) :
  LastPass.runLastPass stdinContent args p = ((out, None), p') →
  lpassInitialized p' = true
  ∧ ∃ tr r,
      trace p' = tr ++ [EvRun (mkCmd "lpass" args (Some stdinContent)) r]
      ∧ run_err r = None
      ∧ out = GoStrings.TrimRight (run_stdout r) nl.
Proof.
  intros Hrun. split; [by eapply runLastPass_ok_flag|]. revert Hrun.
  unfold LastPass.runLastPass, mbind, M_bind.
  destruct (LastPass.checkInitialized p) as [[e0|] p1]; [done|].
  rewrite runLastPassHelper_unfold.
  destruct (exec_Run _ _) as [r w']. destruct (run_err r) eqn:Er; [done|].
  intros [= <- <-]. by exists (trace p1), r.
Qed.

(** X3: when the session guard fails, [Get], [Delete] and [List] return
    its error and stop where the guard stopped: the command of the
    operation itself is never run. *)
Theorem guard_failure_aborts
    (p p1 : Proc W) (e : string) (serverURL : string) (u : GoURL.URL) :
  LastPass.checkInitialized p = (Some e, p1) →
  serverURL ≠ EmptyString →
  GoURL.Parse serverURL = GoURL.Ok u →
  LastPass.Get serverURL p = ((EmptyString, EmptyString, Some e), p1)
  ∧ LastPass.Delete serverURL p = (Some e, p1)
  ∧ LastPass.List p = ((None, Some e), p1).
Proof.
  intros Hguard Hne Hu. split_and!.
  - unfold LastPass.Get. rewrite decide_False by done.
    rewrite (domainInURL_ok _ _ Hu). unfold mbind, M_bind.
    by rewrite (runLastPass_guard_fail _ _ _ _ _ Hguard).
  - unfold LastPass.Delete. rewrite decide_False by done.
    rewrite (domainInURL_ok _ _ Hu). unfold mbind, M_bind.
    by rewrite (runLastPass_guard_fail _ _ _ _ _ Hguard).
  - rewrite List_unfold. by rewrite (runLastPass_guard_fail _ _ _ _ _ Hguard).
Qed.

(** X4: a server URL that [url.Parse] rejects makes [Get], [Delete] and
    [Add] return the error of the parser, the text of its [*url.Error],
    with the process as it was: the session guard is not even consulted. *)
Theorem unparseable_url_no_subprocess
    (p : Proc W) (serverURL : string) (err : GoURL.error_value)
    (creds : Credentials) :
  GoURL.Parse serverURL = GoURL.Err err →
  ServerURL creds = serverURL →
  LastPass.Get serverURL p
  = ((EmptyString, EmptyString, Some (GoURL.Error_text err)), p)
  ∧ LastPass.Delete serverURL p = (Some (GoURL.Error_text err), p)
  ∧ LastPass.Add (Some creds) p = (Some (GoURL.Error_text err), p).
Proof.
  intros He Hcreds.
  assert (Hne : serverURL ≠ EmptyString) by (intros ->; vm_compute in He; done).
  assert (Hd : LastPass.domainInURL serverURL
               = (EmptyString, Some (GoURL.Error_text err))).
  { unfold LastPass.domainInURL. by rewrite He. }
  split_and!.
  - unfold LastPass.Get. rewrite decide_False by done. by rewrite Hd.
  - unfold LastPass.Delete. rewrite decide_False by done. by rewrite Hd.
  - unfold LastPass.Add. by rewrite Hcreds, Hd.
Qed.


(** X6: the path an operation looks up for a server URL that parses: the
    folder, a slash and the host name; but the folder itself when the host
    name is empty or [.], and [.], outside the folder, when it is [..]. *)
Theorem EntryIdentifier_path (serverURL : string) (u : GoURL.URL) :
  GoURL.Parse serverURL = GoURL.Ok u →
  EntryIdentifier serverURL = (entry_path (GoURL.Hostname u), None).
Proof.
  intros Hu. unfold EntryIdentifier. rewrite (domainInURL_ok _ _ Hu).
  rewrite Join_folder; [done|]. by eapply Hostname_slash_free.
Qed.

(** X7: [Get] returns no partial data: with an error both strings are
    empty, also when the username was already fetched; without one,
    neither string ends in a line feed and the session is initialized. *)
Theorem Get_all_or_nothing
    (serverURL : string) (p p' : Proc W) (username secret : string) (err : error) :
  LastPass.Get serverURL p = ((username, secret, err), p') →
  (err ≠ None → username = EmptyString ∧ secret = EmptyString)
  ∧ (err = None →
     lpassInitialized p' = true
     ∧ (∀ t, username ≠ t +:+ nl) ∧ (∀ t, secret ≠ t +:+ nl)).
Proof.
  unfold LastPass.Get. destruct (decide (serverURL = EmptyString)).
  { intros [= <- <- <- _]. by split. }
  destruct (LastPass.domainInURL serverURL) as [domain [e|]].
  { intros [= <- <- <- _]. by split. }
  unfold mbind, M_bind.
  destruct (LastPass.runLastPass _ _ p) as [[user [e|]] p1] eqn:H1.
  { intros [= <- <- <- _]. by split. }
  destruct (LastPass.runLastPass _ _ p1) as [[pass [e|]] p2] eqn:H2.
  { intros [= <- <- <- _]. by split. }
  intros [= <- <- <- <-]. split; [done|]. intros _.
  apply runLastPass_ok_last in H1 as (_ & tr1 & r1 & _ & _ & ->).
  apply runLastPass_ok_last in H2 as (Hflag & tr2 & r2 & _ & _ & ->).
  split_and!; [done| |]; intros t; apply TrimRight_nl_no_trailing.
Qed.

End OperationsMore.

Section DeleteMore.
Context {W : Type} `{!World W} `{!Strconv}.

(** X8: in an initialized process, [Delete] of a server URL that parses
    runs exactly one subprocess, [lpass rm] on the entry path of the host,
    and returns its outcome: nil for exit status 0, otherwise the error of
    the run followed by what it wrote to standard error. *)
Theorem Delete_runs_one_rm
    (serverURL : string) (u : GoURL.URL) (p : Proc W) (r : RunResult) (w' : W) :
  lpassInitialized p = true →
  serverURL ≠ EmptyString →
  GoURL.Parse serverURL = GoURL.Ok u →
  exec_Run (rm_cmd (entry_path (GoURL.Hostname u))) (world p) = (r, w') →
  LastPass.Delete serverURL p =
    (match run_err r with
     | Some err => Some (err +:+ ": " +:+ run_stderr r)
     | None => None
     end,
     mkProc true w'
       (trace p ++ [EvRun (rm_cmd (entry_path (GoURL.Hostname u))) r])).
Proof.
  intros Hp Hne Hu Hrun. unfold LastPass.Delete. rewrite decide_False by done.
  rewrite (domainInURL_ok _ _ Hu).
  rewrite Join_folder by (by eapply Hostname_slash_free).
  fold (entry_path (GoURL.Hostname u)). unfold mbind, M_bind.
  rewrite (runLastPass_fast _ _ p Hp), runLastPassHelper_unfold.
  fold (rm_cmd (entry_path (GoURL.Hostname u))). rewrite Hrun, Hp.
  by destruct (run_err r).
Qed.

(** X9: after a [Get] that succeeded, whatever the state it started in,
    the session is initialized, so a [Delete] of the same server URL runs
    a single subprocess: [lpass rm] on the very path whose username and
    password the [Get] had just shown. *)
Theorem Delete_after_Get
    (serverURL : string) (p p1 : Proc W) (username secret : string) :
  LastPass.Get serverURL p = ((username, secret, None), p1) →
  ∃ entryID tr r1 r2 r3,
    EntryIdentifier serverURL = (entryID, None)
    ∧ trace p1 = tr ++ [EvRun (show_cmd "--user" entryID) r1;
                        EvRun (show_cmd "--pass" entryID) r2]
    ∧ trace (LastPass.Delete serverURL p1).2
      = trace p1 ++ [EvRun (rm_cmd entryID) r3].
Proof.
  unfold LastPass.Get, LastPass.Delete, EntryIdentifier.
  destruct (decide (serverURL = EmptyString)); [done|].
  destruct (LastPass.domainInURL serverURL) as [domain [e|]]; [done|].
  set (entryID := GoPath.Join [LastPass.LASTPASS_FOLDER; domain]).
  unfold mbind, M_bind.
  destruct (LastPass.runLastPass _ _ p) as [[user [e|]] p0] eqn:H1; [done|].
  destruct (LastPass.runLastPass _ _ p0) as [[pass [e|]] p2] eqn:H2; [done|].
  intros [= -> -> ->].
  pose proof (runLastPass_ok_last _ _ _ _ _ H1) as (Hp0 & tr & r1 & Htr1 & _ & _).
  pose proof (runLastPass_ok_flag _ _ _ _ _ H2) as Hp1.
  rewrite (runLastPass_fast _ _ p0 Hp0), runLastPassHelper_unfold in H2.
  destruct (exec_Run _ (world p0)) as [r2 w2] eqn:E2.
  destruct (run_err r2); [done|]. injection H2 as _ <-.
  rewrite (runLastPass_fast _ _ _ Hp1), runLastPassHelper_unfold.
  cbn [world trace lpassInitialized].
  destruct (exec_Run _ w2) as [r3 w3].
  exists entryID, tr, r1, r2, r3. split; [done|]. rewrite Htr1.
  split; [by rewrite <- app_assoc|].
  by destruct (run_err r3).
Qed.

End DeleteMore.

(** ** Nothing but [lpass] once initialized *)

Section Quiet.
Context {W : Type} `{!World W} `{!Strconv}.

Lemma count_events_app (f : Event → bool) (evs1 evs2 : list Event) :
  count_events f (evs1 ++ evs2) = count_events f evs1 + count_events f evs2.
Proof.
  induction evs1 as [|ev evs1 IH]; [done|].
  cbn [app count_events]. rewrite IH. lia.
Qed.

Lemma no_session_events_nil : no_session_events [].
Proof. by split_and!. Qed.

Lemma no_session_events_app (evs1 evs2 : list Event) :
  no_session_events evs1 → no_session_events evs2 →
  no_session_events (evs1 ++ evs2).
Proof.
  intros (F1 & A1 & B1 & C1 & D1) (F2 & A2 & B2 & C2 & D2).
  unfold no_session_events. rewrite !count_events_app, A1, A2, B1, B2, C1, C2, D1, D2.
  split_and!; try done. by apply Forall_app.
Qed.

Lemma no_session_events_run (verb : string) (rest : list string)
    (stdinContent : string) (r : RunResult) :
  verb ∈ ["show"; "add"; "edit"; "rm"; "ls"] →
  no_session_events [EvRun (mkCmd "lpass" (verb :: rest) (Some stdinContent)) r].
Proof.
  intros Hverb. split.
  { constructor; [|constructor]. by exists verb, rest, stdinContent, r. }
  cbn [count_events is_probe is_login is_prompt is_read cmd_Args].
  assert (Hp : (match rest with
                | [b] => String.eqb verb "status" && String.eqb b "--quiet"
                | _ => false
                end) = false).
  { destruct rest as [|b [|? ?]]; try done.
    repeat (apply elem_of_cons in Hverb as [->|Hverb]; [done|]).
    by apply elem_of_nil in Hverb. }
  assert (Hl : String.eqb verb "login" = false).
  { repeat (apply elem_of_cons in Hverb as [->|Hverb]; [done|]).
    by apply elem_of_nil in Hverb. }
  destruct rest as [|b [|? ?]]; rewrite ?Hp, Hl; done.
Qed.

Lemma quiet_ret {A : Type} (a : A) : quiet (mret a : M W A).
Proof.
  intros p Hp. split; [done|]. exists [].
  split; [by rewrite app_nil_r|apply no_session_events_nil].
Qed.

Lemma quiet_bind {A B : Type} (m : M W A) (f : A → M W B) :
  quiet m → (∀ a, quiet (f a)) → quiet (m ≫= f).
Proof.
  intros Hm Hf p Hp. unfold mbind, M_bind.
  destruct (Hm p Hp) as (Hp1 & evs1 & Htr1 & Hev1).
  destruct (m p) as [a p1]. cbn [snd] in *.
  destruct (Hf a p1 Hp1) as (Hp2 & evs2 & Htr2 & Hev2).
  split; [done|]. exists (evs1 ++ evs2).
  rewrite Htr2, Htr1, app_assoc. split; [done|]. by apply no_session_events_app.
Qed.

Lemma quiet_runLastPass (stdinContent verb : string) (rest : list string) :
  verb ∈ ["show"; "add"; "edit"; "rm"; "ls"] →
  quiet (LastPass.runLastPass stdinContent (verb :: rest)).
Proof.
  intros Hverb p Hp. rewrite (runLastPass_fast _ _ p Hp), runLastPassHelper_unfold.
  destruct (exec_Run _ _) as [r w'].
  pose proof (no_session_events_run verb rest stdinContent r Hverb) as Hev.
  destruct (run_err r); cbn [snd trace lpassInitialized]; eauto.
Qed.

Lemma quiet_Get (serverURL : string) : quiet (LastPass.Get serverURL).
Proof.
  unfold LastPass.Get. destruct (decide _); [apply quiet_ret|].
  destruct (LastPass.domainInURL serverURL) as [domain [e|]]; [apply quiet_ret|].
  apply quiet_bind; [apply quiet_runLastPass; set_solver|].
  intros [username [e|]]; [apply quiet_ret|].
  apply quiet_bind; [apply quiet_runLastPass; set_solver|].
  intros [secret [e|]]; apply quiet_ret.
Qed.

Lemma quiet_List_range (entries : list string) (resp : gmap string string) :
  quiet (LastPass.List_range entries resp).
Proof.
  revert resp. induction entries as [|entry entries IH]; intros resp.
  - apply quiet_ret.
  - cbn [LastPass.List_range].
    apply quiet_bind; [apply quiet_runLastPass; set_solver|].
    intros [serverURL [e|]]; [apply quiet_ret|].
    apply quiet_bind; [apply quiet_runLastPass; set_solver|].
    intros [username [e|]]; [apply quiet_ret|apply IH].
Qed.

(** X10: in a process whose flag is set, [Get], [Add], [Delete] and
    [List] keep it set, and every event they add to the trace is a run of
    [lpass show], [add], [edit], [rm] or [ls] with piped input: among
    them there is no status probe and no login subcommand, no prompt is
    printed and standard input is not read. *)
Theorem initialized_operations_are_quiet :
  (∀ serverURL, quiet (LastPass.Get serverURL))
  ∧ (∀ creds, quiet (LastPass.Add creds))
  ∧ (∀ serverURL, quiet (LastPass.Delete serverURL))
  ∧ quiet LastPass.List.
Proof.
  split_and!.
  - apply quiet_Get.
  - intros [creds|]; [|apply quiet_ret]. unfold LastPass.Add.
    destruct (LastPass.domainInURL _) as [domain [e|]]; [apply quiet_ret|].
    apply quiet_bind; [apply quiet_Get|]. intros [[username secret] [e|]].
    + apply quiet_bind; [apply quiet_runLastPass; set_solver|]. intros [out err].
      apply quiet_ret.
    + apply quiet_bind; [apply quiet_runLastPass; set_solver|]. intros [out err].
      apply quiet_ret.
  - intros serverURL. unfold LastPass.Delete.
    destruct (decide _); [apply quiet_ret|].
    destruct (LastPass.domainInURL serverURL) as [domain [e|]]; [apply quiet_ret|].
    apply quiet_bind; [apply quiet_runLastPass; set_solver|]. intros [out err].
    apply quiet_ret.
  - unfold LastPass.List.
    apply quiet_bind; [apply quiet_runLastPass; set_solver|].
    intros [output [e|]]; [apply quiet_ret|apply quiet_List_range].
Qed.

End Quiet.

(** ** The identifiers [List] ranges over *)

Lemma Split_nonempty (s : string) (sep : ascii) : GoStrings.Split s sep ≠ [].
Proof.
  pose proof (Split_length s sep) as Hlen.
  destruct (GoStrings.Split s sep); [done|done].
Qed.

Lemma unsplit_cons_byte (c : ascii) (seg : string) (segs : list string) :
  unsplit (String c seg :: segs) = String c (unsplit (seg :: segs)).
Proof. by destruct segs. Qed.

(** Joining the segments with line feeds gives the string back. *)
Lemma unsplit_Split (s : string) : unsplit (GoStrings.Split s LF) = s.
Proof.
  induction s as [|c s IH]; [done|]. cbn [GoStrings.Split].
  destruct (decide (c = LF)) as [->|Hc].
  - pose proof (Split_nonempty s LF) as Hne.
    destruct (GoStrings.Split s LF) as [|seg segs]; [done|].
    change (unsplit (EmptyString :: seg :: segs))
      with (String LF (unsplit (seg :: segs))). by rewrite IH.
  - pose proof (Split_nonempty s LF) as Hne.
    destruct (GoStrings.Split s LF) as [|seg segs]; [done|].
    by rewrite unsplit_cons_byte, IH.
Qed.

(** No segment holds a line feed. *)
Lemma Split_LF_free (s : string) : Forall LF_free (GoStrings.Split s LF).
Proof.
  induction s as [|c s IH]; [repeat constructor|]. cbn [GoStrings.Split].
  destruct (decide (c = LF)) as [->|Hc]; [constructor; [reflexivity|done]|].
  assert (Hcons : ∀ seg, LF_free seg → LF_free (String c seg)).
  { intros seg Hseg. unfold LF_free in *. cbn [GoStrings.IndexByte].
    destruct (decide (c = LF)); [done|]. by rewrite Hseg. }
  destruct (GoStrings.Split s LF) as [|seg segs].
  - constructor; [by apply Hcons|done].
  - inversion_clear IH as [|? ? Hseg Hsegs]. constructor; [by apply Hcons|done].
Qed.

(** The last segment is empty only for the empty string and for a string
    that ends in a line feed. *)
Lemma last_Split_empty (s : string) :
  last (GoStrings.Split s LF) = Some EmptyString →
  s = EmptyString ∨ ∃ t, s = t +:+ nl.
Proof.
  induction s as [|c s IH]; [by left|]. cbn [GoStrings.Split]. intros Hlast.
  right. pose proof (Split_nonempty s LF) as Hne.
  destruct (decide (c = LF)) as [->|Hc].
  - destruct (GoStrings.Split s LF) as [|seg segs] eqn:E; [done|].
    cbn [last] in Hlast. destruct (IH Hlast) as [->|[t ->]].
    + by exists EmptyString.
    + by exists (String LF t).
  - destruct (GoStrings.Split s LF) as [|seg segs] eqn:E; [done|].
    destruct segs as [|seg' segs]; [done|].
    cbn [last] in *. destruct (IH Hlast) as [->|[t ->]]; [done|].
    by exists (String c t).
Qed.

Section ListMore.
Context {W : Type} `{!World W} `{!Strconv}.

(** X11: the identifiers [List] ranges over are the lines of the listing:
    none holds a line feed, put back together with line feeds they are the
    listing as returned, and, the listing having lost its trailing line
    feeds, the last identifier is empty only when the listing is empty (a
    single empty identifier). *)
Theorem List_identifiers_are_the_lines (p p0 : Proc W) (output : string) :
  LastPass.runLastPass EmptyString
    ["ls"; "--format"; "%ai"; LastPass.LASTPASS_FOLDER] p = ((output, None), p0) →
  LastPass.List p = LastPass.List_range (GoStrings.Split output LF) ∅ p0
  ∧ Forall LF_free (GoStrings.Split output LF)
  ∧ unsplit (GoStrings.Split output LF) = output
  ∧ (last (GoStrings.Split output LF) = Some EmptyString →
     output = EmptyString ∧ GoStrings.Split output LF = [EmptyString]).
Proof.
  intros Hls. split_and!.
  - by rewrite List_unfold, Hls.
  - apply Split_LF_free.
  - apply unsplit_Split.
  - intros Hlast.
    apply runLastPass_ok_last in Hls as (_ & tr & r & _ & _ & Hout).
    apply last_Split_empty in Hlast as [->|[t Ht]]; [done|].
    rewrite Hout in Ht. by apply TrimRight_nl_no_trailing in Ht.
Qed.

Lemma dom_foldl_store_pair (pairs : list (string * string))
    (resp : gmap string string) :
  dom (foldl store_pair resp pairs) = dom resp ∪ list_to_set pairs.*1.
Proof.
  revert resp. induction pairs as [|[k v] pairs IH]; intros resp.
  - cbn. by rewrite (right_id_L ∅ (∪)).
  - cbn [foldl fmap list_fmap list_to_set]. rewrite IH. unfold store_pair.
    cbn [fst snd]. rewrite dom_insert_L.
    by rewrite (comm_L (∪) {[k]} (dom resp)), (assoc_L (∪)).
Qed.

Lemma size_foldl_store_pair (pairs : list (string * string))
    (resp : gmap string string) :
  size resp ≤ size (foldl store_pair resp pairs) ≤ size resp + length pairs.
Proof.
  revert resp. induction pairs as [|[k v] pairs IH]; intros resp.
  - cbn. lia.
  - cbn [foldl length]. specialize (IH (store_pair resp (k, v))).
    unfold store_pair in *. cbn [fst snd] in *.
    rewrite map_size_insert in IH. destruct (resp !! k); simpl in IH; lia.
Qed.

(** X13: the map a successful [List] returns has exactly the URLs its
    [show --url] invocations returned as keys; it is never empty, and has
    at most one key per identifier. *)
Theorem List_success_keys
    (p p0 p' : Proc W) (output : string) (m : gmap string string) :
  LastPass.runLastPass EmptyString
    ["ls"; "--format"; "%ai"; LastPass.LASTPASS_FOLDER] p = ((output, None), p0) →
  LastPass.List p = ((Some m, None), p') →
  ∃ rs : list (RunResult * RunResult),
    trace p' = trace p0
               ++ concat (zip_with show_events (GoStrings.Split output LF) rs)
    ∧ length rs = length (GoStrings.Split output LF)
    ∧ dom m = list_to_set ((λ r, GoStrings.TrimRight (run_stdout r.1) nl) <$> rs)
    ∧ 1 ≤ size m ≤ S (GoStrings.Count output LF).
Proof.
  intros Hls HList.
  destruct (List_success p p0 p' output m Hls HList) as (rs & Hlen & Htr & _ & Hm).
  exists rs. split_and!; try done.
  - rewrite Hm, dom_foldl_store_pair, dom_empty_L, (left_id_L ∅ (∪)).
    by rewrite <- list_fmap_compose.
  - rewrite Hm. rewrite Split_length in Hlen.
    destruct rs as [|r rs]; [done|]. cbn [fmap list_fmap foldl].
    pose proof (size_foldl_store_pair (entry_pair <$> rs)
                  (store_pair ∅ (entry_pair r))) as [Hlo _].
    assert (Hone : size (store_pair ∅ (entry_pair r)) = 1).
    { unfold store_pair. by rewrite map_size_insert, lookup_empty, map_size_empty. }
    lia.
  - rewrite Hm. rewrite Split_length in Hlen.
    pose proof (size_foldl_store_pair (entry_pair <$> rs) ∅) as [_ Hhi].
    rewrite map_size_empty, length_fmap in Hhi. lia.
Qed.

End ListMore.

(** ** The field block *)

Lemma append_nl_inj (a b : string) : a +:+ nl = b +:+ nl → a = b.
Proof.
  revert b. induction a as [|c a IH]; intros [|d b]; autorewrite with gostring.
  - done.
  - unfold nl. intros [= _ Hb]. destruct b; discriminate.
  - unfold nl. intros [= _ Ha]. destruct a; discriminate.
  - intros [= -> Hab]. f_equal. by apply IH.
Qed.

(** Two strings that agree up to the first line feed of each agree on
    what precedes it and on what follows. *)
Lemma cut_at_LF (a b x y : string) :
  LF_free a → LF_free b →
  a +:+ String LF x = b +:+ String LF y → a = b ∧ x = y.
Proof.
  unfold LF_free. revert b. induction a as [|c a IH]; intros [|d b];
    cbn [GoStrings.IndexByte]; autorewrite with gostring.
  - by intros _ _ [= ->].
  - intros _. destruct (decide (d = LF)); [done|]. by intros _ [= ?].
  - destruct (decide (c = LF)); [done|]. by intros _ _ [= ?].
  - destruct (decide (c = LF)); [done|]. destruct (decide (d = LF)); [done|].
    destruct (GoStrings.IndexByte a LF) eqn:Ea; [done|].
    destruct (GoStrings.IndexByte b LF) eqn:Eb; [done|].
    intros _ _ [= -> Hab]. destruct (IH b eq_refl Eb Hab) as [-> ->]. done.
Qed.

(** X12: the field block [Add] pipes to [lpass] determines the
    credentials when the server URL and the username hold no line feed. *)
Theorem field_block_injective (c1 c2 : Credentials) :
  LF_free (ServerURL c1) → LF_free (ServerURL c2) →
  LF_free (Username c1) → LF_free (Username c2) →
  field_block c1 = field_block c2 → c1 = c2.
Proof.
  intros Hu1 Hu2 Hn1 Hn2. unfold field_block. intros Heq.
  apply (inj (String.append _)) in Heq.
  apply cut_at_LF in Heq as [Hurl Heq]; [|done|done].
  apply (inj (String.append _)) in Heq.
  apply cut_at_LF in Heq as [Hname Heq]; [|done|done].
  apply (inj (String.append _)) in Heq. apply append_nl_inj in Heq.
  destruct c1, c2. cbn in *. congruence.
Qed.

(** ** The errors of the guard, and where [Add] writes *)

Section GuardErrors.
Context {W : Type} `{!World W} `{!Strconv}.

(** X14: the session guard fails in two ways only: with the login-failure
    message, right after a login subcommand that did not exit with
    status 0, or with ["lpass not initialized: "] followed by the error of
    the status probe it ran last. *)
Theorem checkInitialized_errors (p : Proc W) (e : string) :
  (LastPass.checkInitialized p).1 = Some e →
  ∃ tr r err,
    trace (LastPass.checkInitialized p).2 = tr ++ [r]
    ∧ ((∃ lpassUsername res,
           r = EvRun (login_cmd lpassUsername) res
           ∧ run_err res = Some err
           ∧ e = login_failed lpassUsername)
       ∨ (∃ res,
           r = EvRun status_probe res
           ∧ run_err res = Some err
           ∧ e = "lpass not initialized: " +:+ err +:+ ": " +:+ run_stderr res)).
Proof.
  destruct (lpassInitialized p) eqn:Hp.
  { by rewrite (checkInitialized_fast p Hp). }
  assert (Hprobe : ∀ q, (LastPass.checkInitialized_probe q).1 = Some e →
    ∃ tr r err,
      trace (LastPass.checkInitialized_probe q).2 = tr ++ [r]
      ∧ ((∃ lpassUsername res,
             r = EvRun (login_cmd lpassUsername) res
             ∧ run_err res = Some err
             ∧ e = login_failed lpassUsername)
         ∨ (∃ res,
             r = EvRun status_probe res
             ∧ run_err res = Some err
             ∧ e = "lpass not initialized: " +:+ err +:+ ": " +:+ run_stderr res))).
  { intros q. rewrite checkInitialized_probe_unfold.
    destruct (exec_Run status_probe (world q)) as [r w'].
    destruct (run_err r) as [err|] eqn:Er; [|done]. cbn [fst snd trace].
    intros [= <-]. exists (trace q), (EvRun status_probe r), err.
    split; [done|]. right. by exists r. }
  rewrite (checkInitialized_unfold p Hp).
  destruct (exec_Run status_probe (world p)) as [r1 w1].
  destruct (run_err r1); [|by apply Hprobe].
  destruct (ReadString (stdin_pending w1) LF) as [user rerr].
  destruct (exec_Run (login_cmd user) (stdin_advance w1)) as [r2 w2].
  destruct (run_err r2) as [err|] eqn:E2; [|by apply Hprobe].
  cbn [fst snd trace]. intros [= <-].
  exists (trace p ++ [EvRun status_probe r1;
                      EvPrint "Enter your LastPass username: ";
                      EvReadString user rerr]),
         (EvRun (login_cmd user) r2), err.
  split; [by rewrite <- app_assoc|]. left. by exists user, r2.
Qed.

(** X15: in an initialized process, [Add] for a non-empty server URL that
    parses runs two or three subprocesses: [show --user]; [show --pass]
    exactly when that succeeded; and then one write, on the path it has
    just looked up and with the field block as input: [add] when both
    lookups succeeded, [edit] when one failed.  What it returns is the
    outcome of this last run alone. *)
Theorem Add_writes_where_it_looked
    (creds : Credentials) (u : GoURL.URL) (p : Proc W) :
  lpassInitialized p = true →
  ServerURL creds ≠ EmptyString →
  GoURL.Parse (ServerURL creds) = GoURL.Ok u →
  ∃ shows verb r,
    trace (LastPass.Add (Some creds) p).2
    = trace p ++ shows
      ++ [EvRun (mkCmd "lpass"
                       [verb; "--non-interactive"; entry_path (GoURL.Hostname u)]
                       (Some (field_block creds))) r]
    ∧ ((∃ r1,
           shows = [EvRun (show_cmd "--user" (entry_path (GoURL.Hostname u))) r1]
           ∧ run_err r1 ≠ None
           ∧ verb = "edit")
       ∨ (∃ r1 r2,
             shows = [EvRun (show_cmd "--user" (entry_path (GoURL.Hostname u))) r1;
                      EvRun (show_cmd "--pass" (entry_path (GoURL.Hostname u))) r2]
             ∧ run_err r1 = None
             ∧ verb = match run_err r2 with Some _ => "edit" | None => "add" end))
    ∧ (LastPass.Add (Some creds) p).1
      = match run_err r with
        | Some err => Some (err +:+ ": " +:+ run_stderr r)
        | None => None
        end.
Proof.
  intros Hp Hne Hu. unfold LastPass.Add, LastPass.Get.
  rewrite decide_False by done. rewrite (domainInURL_ok _ _ Hu).
  rewrite Join_folder by (by eapply Hostname_slash_free).
  fold (entry_path (GoURL.Hostname u)). fold (field_block creds).
  set (id := entry_path (GoURL.Hostname u)).
  set (block := field_block creds).
  assert (Hwrite : ∀ verb q shows,
    lpassInitialized q = true → trace q = trace p ++ shows →
    ∃ r,
      trace (let '((_, err), p2) :=
               LastPass.runLastPass block [verb; "--non-interactive"; id] q in
             (err, p2)).2
      = trace p ++ shows
        ++ [EvRun (mkCmd "lpass" [verb; "--non-interactive"; id] (Some block)) r]
      ∧ (let '((_, err), p2) :=
           LastPass.runLastPass block [verb; "--non-interactive"; id] q in
         (err, p2)).1
        = match run_err r with
          | Some err => Some (err +:+ ": " +:+ run_stderr r)
          | None => None
          end).
  { intros verb q shows Hq Htr.
    rewrite (runLastPass_fast _ _ q Hq), runLastPassHelper_unfold.
    destruct (exec_Run _ (world q)) as [r w']. exists r.
    destruct (run_err r); cbn [fst snd trace]; by rewrite Htr, <- app_assoc. }
  unfold mbind, M_bind.
  rewrite (runLastPass_fast _ _ p Hp), runLastPassHelper_unfold.
  fold (show_cmd "--user" id).
  destruct (exec_Run (show_cmd "--user" id) (world p)) as [r1 w1].
  destruct (run_err r1) as [e1|] eqn:E1; unfold mret, M_ret; cbv beta iota zeta.
  - destruct (Hwrite "edit" (mkProc (lpassInitialized p) w1
                               (trace p ++ [EvRun (show_cmd "--user" id) r1]))
                [EvRun (show_cmd "--user" id) r1]) as (r & Htr & Hres); [done..|].
    destruct (LastPass.runLastPass block _ _) as [[out err] p2].
    cbn [fst snd] in Htr, Hres |- *.
    exists [EvRun (show_cmd "--user" id) r1], "edit", r.
    split_and!; [exact Htr|left; exists r1; by rewrite E1|exact Hres].
  - rewrite runLastPass_fast by done. rewrite runLastPassHelper_unfold.
    cbn [world trace lpassInitialized]. fold (show_cmd "--pass" id).
    destruct (exec_Run (show_cmd "--pass" id) w1) as [r2 w2].
    destruct (run_err r2) as [e2|] eqn:E2; unfold mret, M_ret; cbv beta iota zeta.
    + destruct (Hwrite "edit"
                  (mkProc (lpassInitialized p) w2
                     ((trace p ++ [EvRun (show_cmd "--user" id) r1])
                      ++ [EvRun (show_cmd "--pass" id) r2]))
                  [EvRun (show_cmd "--user" id) r1; EvRun (show_cmd "--pass" id) r2])
        as (r & Htr & Hres); [done|by rewrite <- app_assoc|].
      destruct (LastPass.runLastPass block _ _) as [[out err] p2].
      cbn [fst snd] in Htr, Hres |- *.
      exists [EvRun (show_cmd "--user" id) r1; EvRun (show_cmd "--pass" id) r2],
             "edit", r.
      split_and!; [exact Htr|right; exists r1, r2; by rewrite E2|exact Hres].
    + destruct (Hwrite "add"
                  (mkProc (lpassInitialized p) w2
                     ((trace p ++ [EvRun (show_cmd "--user" id) r1])
                      ++ [EvRun (show_cmd "--pass" id) r2]))
                  [EvRun (show_cmd "--user" id) r1; EvRun (show_cmd "--pass" id) r2])
        as (r & Htr & Hres); [done|by rewrite <- app_assoc|].
      destruct (LastPass.runLastPass block _ _) as [[out err] p2].
      cbn [fst snd] in Htr, Hres |- *.
      exists [EvRun (show_cmd "--user" id) r1; EvRun (show_cmd "--pass" id) r2],
             "add", r.
      split_and!; [exact Htr|right; exists r1, r2; by rewrite E2|exact Hres].
Qed.

End GuardErrors.

(** ** The further properties on sample runs *)

(** The probe fails, [alice] logs in, the second probe succeeds. *)
Lemma checkInitialized_spawn_bounds_witness :
  ∃ evs,
    trace (LastPass.checkInitialized
             (fresh [exited 1 EmptyString EmptyString;
                     exited 0 EmptyString EmptyString;
                     exited 0 EmptyString EmptyString] ("alice" +:+ nl))).2
    = [] ++ evs
    ∧ 1 ≤ count_events is_probe evs ≤ 2
    ∧ count_events is_login evs ≤ 1
    ∧ count_events is_prompt evs = count_events is_login evs
    ∧ count_events is_read evs = count_events is_login evs
    ∧ length evs = count_events is_probe evs + 3 * count_events is_login evs
    ∧ (count_events is_login evs = 1
       ↔ run_err (exited 1 EmptyString EmptyString) ≠ None).
Proof.
  exact (checkInitialized_spawn_bounds (W := Scripted)
           (fresh [exited 1 EmptyString EmptyString;
                   exited 0 EmptyString EmptyString;
                   exited 0 EmptyString EmptyString] ("alice" +:+ nl))
           eq_refl).
Defined.

(** The probe and the login both fail: no operation goes further. *)
Lemma guard_failure_aborts_witness :
  LastPass.Get "https://example.com"
    (fresh [exited 1 EmptyString EmptyString; exited 1 EmptyString EmptyString]
           ("alice" +:+ nl))
  = ((EmptyString, EmptyString, Some (login_failed ("alice" +:+ nl))),
     mkProc false (mkScripted [] EmptyString)
       [EvRun status_probe (exited 1 EmptyString EmptyString);
        EvPrint "Enter your LastPass username: ";
        EvReadString ("alice" +:+ nl) None;
        EvRun (login_cmd ("alice" +:+ nl)) (exited 1 EmptyString EmptyString)])
  ∧ LastPass.Delete "https://example.com"
      (fresh [exited 1 EmptyString EmptyString; exited 1 EmptyString EmptyString]
             ("alice" +:+ nl))
    = (Some (login_failed ("alice" +:+ nl)),
       mkProc false (mkScripted [] EmptyString)
         [EvRun status_probe (exited 1 EmptyString EmptyString);
          EvPrint "Enter your LastPass username: ";
          EvReadString ("alice" +:+ nl) None;
          EvRun (login_cmd ("alice" +:+ nl)) (exited 1 EmptyString EmptyString)])
  ∧ LastPass.List
      (fresh [exited 1 EmptyString EmptyString; exited 1 EmptyString EmptyString]
             ("alice" +:+ nl))
    = ((None, Some (login_failed ("alice" +:+ nl))),
       mkProc false (mkScripted [] EmptyString)
         [EvRun status_probe (exited 1 EmptyString EmptyString);
          EvPrint "Enter your LastPass username: ";
          EvReadString ("alice" +:+ nl) None;
          EvRun (login_cmd ("alice" +:+ nl)) (exited 1 EmptyString EmptyString)]).
Proof.
  eapply (guard_failure_aborts (W := Scripted)).
  - reflexivity.
  - discriminate.
  - reflexivity.
Defined.

(** A server URL with a bad escape. *)
Lemma unparseable_url_no_subprocess_witness :
  LastPass.Get "https://example.com/%zz" (ready [])
  = ((EmptyString, EmptyString,
      Some ("parse " +:+ quoted "https://example.com/%zz"
            +:+ ": invalid URL escape " +:+ quoted "%zz")),
     ready [])
  ∧ LastPass.Delete "https://example.com/%zz" (ready [])
    = (Some ("parse " +:+ quoted "https://example.com/%zz"
             +:+ ": invalid URL escape " +:+ quoted "%zz"),
       ready [])
  ∧ LastPass.Add (Some (mkCredentials "https://example.com/%zz" "alice" "pw"))
      (ready [])
    = (Some ("parse " +:+ quoted "https://example.com/%zz"
             +:+ ": invalid URL escape " +:+ quoted "%zz"),
       ready []).
Proof.
  exact (unparseable_url_no_subprocess (W := Scripted) (ready [])
           "https://example.com/%zz"
           (GoURL.url_Error "parse" "https://example.com/%zz"
              (GoURL.EscapeError "%zz"))
           (mkCredentials "https://example.com/%zz" "alice" "pw")
           eq_refl eq_refl).
Defined.


(** The host [..] leaves the folder. *)
Lemma EntryIdentifier_path_witness :
  EntryIdentifier "https://registry.example.com:5000/v2/"
  = ("Docker Credentials/registry.example.com", None)
  ∧ EntryIdentifier "https://../" = (".", None).
Proof.
  split.
  - exact (EntryIdentifier_path "https://registry.example.com:5000/v2/"
             (GoURL.mkURL "https" EmptyString None "registry.example.com:5000"
                "/v2/" false EmptyString EmptyString) eq_refl).
  - exact (EntryIdentifier_path "https://../"
             (GoURL.mkURL "https" EmptyString None ".." "/" false
                EmptyString EmptyString) eq_refl).
Defined.

(** The username is found, the password is not: the username is dropped. *)
Lemma Get_all_or_nothing_witness :
  (LastPass.Get "https://example.com"
     (ready [exited 0 ("alice" +:+ nl) EmptyString;
             exited 1 EmptyString "Error: Could not find specified account(s)."])).1
  = (EmptyString, EmptyString,
     Some "exit status 1: Error: Could not find specified account(s).").
Proof.
  destruct (LastPass.Get "https://example.com"
              (ready [exited 0 ("alice" +:+ nl) EmptyString;
                      exited 1 EmptyString
                        "Error: Could not find specified account(s)."]))
    as [[[username secret] err] p'] eqn:HGet.
  destruct (Get_all_or_nothing (W := Scripted) _ _ _ _ _ _ HGet) as [Hnone _].
  vm_compute in HGet. injection HGet as Hu Hs He Hp. subst err.
  destruct Hnone as [-> ->]; [discriminate|reflexivity].
Defined.

(** No entry for the host. *)
Lemma Delete_runs_one_rm_witness :
  LastPass.Delete "https://example.com"
    (ready [exited 1 EmptyString "Error: Could not find specified account(s)."])
  = (Some "exit status 1: Error: Could not find specified account(s).",
     mkProc true (mkScripted [] EmptyString)
       [EvRun (rm_cmd "Docker Credentials/example.com")
              (exited 1 EmptyString "Error: Could not find specified account(s).")]).
Proof.
  apply (Delete_runs_one_rm (W := Scripted) "https://example.com"
           (GoURL.mkURL "https" EmptyString None "example.com" EmptyString false
              EmptyString EmptyString)
           (ready [exited 1 EmptyString
                     "Error: Could not find specified account(s)."])
           (exited 1 EmptyString "Error: Could not find specified account(s).")
           (mkScripted [] EmptyString)); (reflexivity || discriminate).
Defined.

(** A first [Get] in a process that has to check its session, then a
    [Delete]. *)
Lemma Delete_after_Get_witness :
  ∃ entryID tr r1 r2 r3,
    EntryIdentifier "https://example.com" = (entryID, None)
    ∧ trace (LastPass.Get "https://example.com"
               (fresh [exited 0 EmptyString EmptyString;
                       exited 0 EmptyString EmptyString;
                       exited 0 ("alice" +:+ nl) EmptyString;
                       exited 0 ("pw" +:+ nl) EmptyString;
                       exited 0 EmptyString EmptyString] EmptyString)).2
      = tr ++ [EvRun (show_cmd "--user" entryID) r1;
               EvRun (show_cmd "--pass" entryID) r2]
    ∧ trace (LastPass.Delete "https://example.com"
               (LastPass.Get "https://example.com"
                  (fresh [exited 0 EmptyString EmptyString;
                          exited 0 EmptyString EmptyString;
                          exited 0 ("alice" +:+ nl) EmptyString;
                          exited 0 ("pw" +:+ nl) EmptyString;
                          exited 0 EmptyString EmptyString] EmptyString)).2).2
      = trace (LastPass.Get "https://example.com"
                 (fresh [exited 0 EmptyString EmptyString;
                         exited 0 EmptyString EmptyString;
                         exited 0 ("alice" +:+ nl) EmptyString;
                         exited 0 ("pw" +:+ nl) EmptyString;
                         exited 0 EmptyString EmptyString] EmptyString)).2
        ++ [EvRun (rm_cmd entryID) r3].
Proof.
  apply (Delete_after_Get (W := Scripted) "https://example.com"
           (fresh [exited 0 EmptyString EmptyString;
                   exited 0 EmptyString EmptyString;
                   exited 0 ("alice" +:+ nl) EmptyString;
                   exited 0 ("pw" +:+ nl) EmptyString;
                   exited 0 EmptyString EmptyString] EmptyString)
           _ "alice" "pw").
  reflexivity.
Defined.

(** A listing in an initialized process. *)
Lemma initialized_operations_are_quiet_witness :
  lpassInitialized
    (LastPass.List (ready [exited 0 ("a" +:+ nl) EmptyString;
                           exited 0 ("https://a.example" +:+ nl) EmptyString;
                           exited 0 ("alice" +:+ nl) EmptyString])).2 = true
  ∧ ∃ evs,
      trace (LastPass.List
               (ready [exited 0 ("a" +:+ nl) EmptyString;
                       exited 0 ("https://a.example" +:+ nl) EmptyString;
                       exited 0 ("alice" +:+ nl) EmptyString])).2
      = [] ++ evs
      ∧ no_session_events evs.
Proof.
  destruct (initialized_operations_are_quiet (W := Scripted)) as (_ & _ & _ & HList).
  apply (HList (ready [exited 0 ("a" +:+ nl) EmptyString;
                       exited 0 ("https://a.example" +:+ nl) EmptyString;
                       exited 0 ("alice" +:+ nl) EmptyString])).
  reflexivity.
Defined.

(** A listing of two lines, printed with a trailing line feed. *)
Lemma List_identifiers_are_the_lines_witness :
  Forall LF_free (GoStrings.Split ("a" +:+ nl +:+ "b") LF)
  ∧ unsplit (GoStrings.Split ("a" +:+ nl +:+ "b") LF) = "a" +:+ nl +:+ "b".
Proof.
  destruct (List_identifiers_are_the_lines (W := Scripted)
              (ready [exited 0 ("a" +:+ nl +:+ "b" +:+ nl) EmptyString])
              (mkProc true (mkScripted [] EmptyString)
                 [EvRun ls_cmd (exited 0 ("a" +:+ nl +:+ "b" +:+ nl) EmptyString)])
              ("a" +:+ nl +:+ "b")) as (_ & Hfree & Hjoin & _); [reflexivity|].
  by split.
Defined.

(** The same credential twice. *)
Lemma field_block_injective_witness :
  mkCredentials "https://example.com" "alice" ("two" +:+ nl +:+ "lines")
  = mkCredentials "https://example.com" "alice" ("two" +:+ nl +:+ "lines").
Proof.
  apply (field_block_injective
           (mkCredentials "https://example.com" "alice" ("two" +:+ nl +:+ "lines"))
           (mkCredentials "https://example.com" "alice" ("two" +:+ nl +:+ "lines")));
    reflexivity.
Defined.

(** Two identifiers with the same URL: one key. *)
Lemma List_success_keys_witness :
  ∃ rs : list (RunResult * RunResult),
    trace (LastPass.List
             (ready [exited 0 ("a" +:+ nl +:+ "b" +:+ nl) EmptyString;
                     exited 0 ("https://x.example" +:+ nl) EmptyString;
                     exited 0 ("alice" +:+ nl) EmptyString;
                     exited 0 ("https://x.example" +:+ nl) EmptyString;
                     exited 0 ("bob" +:+ nl) EmptyString])).2
    = [EvRun ls_cmd (exited 0 ("a" +:+ nl +:+ "b" +:+ nl) EmptyString)]
      ++ concat (zip_with show_events (GoStrings.Split ("a" +:+ nl +:+ "b") LF) rs)
    ∧ length rs = length (GoStrings.Split ("a" +:+ nl +:+ "b") LF)
    ∧ dom ({[ "https://x.example" := "bob" ]} : gmap string string)
      = list_to_set ((λ r, GoStrings.TrimRight (run_stdout r.1) nl) <$> rs)
    ∧ 1 ≤ size ({[ "https://x.example" := "bob" ]} : gmap string string)
        ≤ S (GoStrings.Count ("a" +:+ nl +:+ "b") LF).
Proof.
  apply (List_success_keys (W := Scripted)
           (ready [exited 0 ("a" +:+ nl +:+ "b" +:+ nl) EmptyString;
                   exited 0 ("https://x.example" +:+ nl) EmptyString;
                   exited 0 ("alice" +:+ nl) EmptyString;
                   exited 0 ("https://x.example" +:+ nl) EmptyString;
                   exited 0 ("bob" +:+ nl) EmptyString])
           (mkProc true
              (mkScripted [exited 0 ("https://x.example" +:+ nl) EmptyString;
                           exited 0 ("alice" +:+ nl) EmptyString;
                           exited 0 ("https://x.example" +:+ nl) EmptyString;
                           exited 0 ("bob" +:+ nl) EmptyString] EmptyString)
              [EvRun ls_cmd (exited 0 ("a" +:+ nl +:+ "b" +:+ nl) EmptyString)])
           _ ("a" +:+ nl +:+ "b") {[ "https://x.example" := "bob" ]}).
  - reflexivity.
  - vm_compute. reflexivity.
Defined.

(** The login goes through and the probe still fails. *)
Lemma checkInitialized_errors_witness :
  ∃ tr r err,
    trace (LastPass.checkInitialized
             (fresh [exited 1 EmptyString EmptyString;
                     exited 0 EmptyString EmptyString;
                     exited 1 EmptyString "Error: not logged in"]
                    ("alice" +:+ nl))).2 = tr ++ [r]
    ∧ ((∃ lpassUsername res,
           r = EvRun (login_cmd lpassUsername) res
           ∧ run_err res = Some err
           ∧ "lpass not initialized: exit status 1: Error: not logged in"
             = login_failed lpassUsername)
       ∨ (∃ res,
           r = EvRun status_probe res
           ∧ run_err res = Some err
           ∧ "lpass not initialized: exit status 1: Error: not logged in"
             = "lpass not initialized: " +:+ err +:+ ": " +:+ run_stderr res)).
Proof.
  apply (checkInitialized_errors (W := Scripted)
           (fresh [exited 1 EmptyString EmptyString;
                   exited 0 EmptyString EmptyString;
                   exited 1 EmptyString "Error: not logged in"]
                  ("alice" +:+ nl))).
  reflexivity.
Defined.

(** No entry yet: the username lookup fails and [Add] runs [lpass edit]. *)
Lemma Add_writes_where_it_looked_witness :
  ∃ shows verb r,
    trace (LastPass.Add (Some (mkCredentials "https://example.com" "alice" "pw"))
             (ready [exited 1 EmptyString "Error: Could not find specified account(s).";
                     exited 1 EmptyString "Error: Could not find specified account(s)."])).2
    = [] ++ shows
      ++ [EvRun (mkCmd "lpass"
                       [verb; "--non-interactive"; "Docker Credentials/example.com"]
                       (Some (field_block
                                (mkCredentials "https://example.com" "alice" "pw"))))
                r]
    ∧ ((∃ r1,
           shows = [EvRun (show_cmd "--user" "Docker Credentials/example.com") r1]
           ∧ run_err r1 ≠ None
           ∧ verb = "edit")
       ∨ (∃ r1 r2,
             shows = [EvRun (show_cmd "--user" "Docker Credentials/example.com") r1;
                      EvRun (show_cmd "--pass" "Docker Credentials/example.com") r2]
             ∧ run_err r1 = None
             ∧ verb = match run_err r2 with Some _ => "edit" | None => "add" end))
    ∧ (LastPass.Add (Some (mkCredentials "https://example.com" "alice" "pw"))
         (ready [exited 1 EmptyString "Error: Could not find specified account(s).";
                 exited 1 EmptyString "Error: Could not find specified account(s)."])).1
      = match run_err r with
        | Some err => Some (err +:+ ": " +:+ run_stderr r)
        | None => None
        end.
Proof.
  apply (Add_writes_where_it_looked (W := Scripted)
           (mkCredentials "https://example.com" "alice" "pw")
           (GoURL.mkURL "https" EmptyString None "example.com" EmptyString false
              EmptyString EmptyString)
           (ready [exited 1 EmptyString "Error: Could not find specified account(s).";
                   exited 1 EmptyString "Error: Could not find specified account(s)."]));
    (reflexivity || discriminate).
Defined.
